(** * Natural-language-to-Python code generator: a shallow embedding

    The repository holds two rule-based translators from short English
    instructions to Python snippets:

    - [nl_to_python.py]       (two rules, [re.search], no stripping);
    - [nlp_to_pythoncode.py]  (seventeen ordered rules, [re.fullmatch]).

    Both are embedded below as executable functions.  Python text is a list
    of characters; the model covers ASCII text (for code points above 127
    Python's [lower], [strip], [isdigit], [\d] and [\w] follow the Unicode
    tables, which are not modelled: such characters are treated here as
    plain symbols that are neither letters, digits nor blanks).  An uncaught
    Python exception is an explicit [Raise] result. *)

From Stdlib Require Import Ascii String ZArith Lia.
From stdpp Require Import base option list gmap strings pretty.

Local Open Scope Z_scope.
Local Open Scope nat_scope.
Local Open Scope list_scope.

(** ** Python strings *)

Abbreviation pystr := (list ascii).

(** Literal text, written as a Rocq string. *)
Definition py (s : string) : pystr := list_ascii_of_string s.

Definition dquote : ascii := "034"%char.
Definition newline : ascii := "010"%char.

(** [ch.lower()] on ASCII: the letters A-Z move to a-z. *)
Definition lower_char (c : ascii) : ascii :=
  let n := nat_of_ascii c in
  if (65 <=? n) && (n <=? 90) then ascii_of_nat (n + 32) else c.

(** [str.lower()] *)
Definition lower (s : pystr) : pystr := map lower_char s.

(** [ch.isspace()] on ASCII: tab, LF, VT, FF, CR, the four separators
    FS, GS, RS, US and the blank. *)
Definition is_space (c : ascii) : bool :=
  let n := nat_of_ascii c in
  ((9 <=? n) && (n <=? 13)) || ((28 <=? n) && (n <=? 32)).

(** ['0' <= ch <= '9'] *)
Definition is_digit (c : ascii) : bool :=
  let n := nat_of_ascii c in (48 <=? n) && (n <=? 57).

Definition is_alpha (c : ascii) : bool :=
  let n := nat_of_ascii c in
  ((65 <=? n) && (n <=? 90)) || ((97 <=? n) && (n <=? 122)).

(** [str.lstrip()], [str.rstrip()] and [str.strip()] without argument. *)
Fixpoint lstrip (s : pystr) : pystr :=
  match s with
  | c :: s' => if is_space c then lstrip s' else s
  | [] => []
  end.

Definition rstrip (s : pystr) : pystr := rev (lstrip (rev s)).

Definition strip (s : pystr) : pystr := rstrip (lstrip s).

(** [str.isdigit()]: at least one character, all of them digits. *)
Definition isdigit (s : pystr) : bool :=
  match s with
  | [] => false
  | _ => forallb is_digit s
  end.

(** [s.split(sep)] for a one-character separator: never an empty list. *)
Fixpoint split (sep : ascii) (s : pystr) : list pystr :=
  match s with
  | [] => [[]]
  | c :: s' =>
      if Ascii.eqb c sep then [] :: split sep s'
      else match split sep s' with
           | piece :: pieces => (c :: piece) :: pieces
           | [] => [[c]]
           end
  end.

(** [sep.join(pieces)] *)
Fixpoint join (sep : pystr) (pieces : list pystr) : pystr :=
  match pieces with
  | [] => []
  | [x] => x
  | x :: rest => x ++ sep ++ join sep rest
  end.

(** [needle in hay] for two strings: [needle] occurs somewhere in [hay]. *)
Fixpoint starts_with (prefix s : pystr) : bool :=
  match prefix, s with
  | [], _ => true
  | c :: prefix', d :: s' => Ascii.eqb c d && starts_with prefix' s'
  | _ :: _, [] => false
  end.

Fixpoint contains (needle hay : pystr) : bool :=
  starts_with needle hay
  || match hay with
     | [] => false
     | _ :: hay' => contains needle hay'
     end.

(** ['"{}"'.format(s)] *)
Definition quoted (s : pystr) : pystr := dquote :: s ++ [dquote].

(** ** Results and exceptions *)

Inductive exn : Type := ValueError | KeyError | IndexError.

Inductive result (A : Type) : Type :=
  | Ok (a : A)
  | Raise (e : exn).
Arguments Ok {A} a.
Arguments Raise {A} e.

#[global] Instance result_ret : MRet result := fun A a => Ok a.
#[global] Instance result_bind : MBind result := fun A B f r =>
  match r with
  | Ok a => f a
  | Raise e => Raise e
  end.

(** CPython refuses to convert between an [int] and a decimal text of more
    than 4300 digits ([sys.int_info.default_max_str_digits]): both [int(s)]
    and [str(n)] then raise [ValueError]. *)
Definition max_str_digits : nat := 4300.

(** [int(s)] for the texts this program hands to it: those captured by
    [\d+].  Any other text is answered with [ValueError]. *)
Definition digit_val (c : ascii) : Z := Z.of_nat (nat_of_ascii c - 48).

Definition py_int (s : pystr) : result Z :=
  if isdigit s then
    if length s <=? max_str_digits
    then Ok (fold_left (fun acc c => 10 * acc + digit_val c)%Z s 0%Z)
    else Raise ValueError
  else Raise ValueError.

(** [str(n)] for an integer, as the formatting of [{}] calls it. *)
Definition str_of_int (n : Z) : result pystr :=
  let text := py (pretty n) in
  let digits := if (n <? 0)%Z then length text - 1 else length text in
  if digits <=? max_str_digits then Ok text else Raise ValueError.

(** ** Regular expressions: the fragment of [re] the rules use *)

Inductive cclass : Type :=
  | CDot     (* .   any character but a newline *)
  | CDigit   (* \d *)
  | CWord.   (* \w *)

Definition in_class (cl : cclass) (c : ascii) : bool :=
  match cl with
  | CDot => negb (Ascii.eqb c newline)
  | CDigit => is_digit c
  | CWord => is_alpha c || is_digit c || Ascii.eqb c "_"%char
  end.

Inductive regex : Type :=
  | Eps
  | Chr (c : ascii)
  | Seq (r1 r2 : regex)
  | Alt (r1 r2 : regex)
  | Plus (cl : cclass)            (* greedy  cl+  *)
  | Group (i : nat) (r : regex).  (* capturing group number i *)

(** A literal word of the pattern. *)
Fixpoint lit_chars (l : pystr) : regex :=
  match l with
  | [] => Eps
  | c :: l' => Seq (Chr c) (lit_chars l')
  end.

Definition lit (s : string) : regex := lit_chars (py s).

(** The groups of a match object: [m.group(i)]. *)
Abbreviation captures := (gmap nat pystr).

Definition group (m : captures) (i : nat) : result pystr :=
  match m !! i with
  | Some s => Ok s
  | None => Raise IndexError
  end.

Definition cont : Type := pystr -> captures -> option captures.

(** The tail of a greedy [cl+] after its first character: take as many
    characters as possible, give back one at a time while the rest of the
    pattern fails. *)
Fixpoint greedy (cl : cclass) (s : pystr) (g : captures) (k : cont)
  : option captures :=
  match s with
  | c :: s' =>
      if in_class cl c then
        match greedy cl s' g k with
        | Some out => Some out
        | None => k s g
        end
      else k s g
  | [] => k s g
  end.

(** The backtracking matcher of [re], in continuation-passing style: [k]
    is the rest of the pattern and receives the unread text. *)
Fixpoint rmatch (r : regex) (s : pystr) (g : captures) (k : cont)
  : option captures :=
  match r with
  | Eps => k s g
  | Chr c =>
      match s with
      | c' :: s' => if Ascii.eqb c c' then k s' g else None
      | [] => None
      end
  | Seq r1 r2 => rmatch r1 s g (fun s' g' => rmatch r2 s' g' k)
  | Alt r1 r2 =>
      match rmatch r1 s g k with
      | Some out => Some out
      | None => rmatch r2 s g k
      end
  | Plus cl =>
      match s with
      | c :: s' => if in_class cl c then greedy cl s' g k else None
      | [] => None
      end
  | Group i r1 =>
      rmatch r1 s g
        (fun s' g' => k s' (<[i := take (length s - length s') s]> g'))
  end.

(** [re.fullmatch(pattern, s)]: the pattern must use up the whole text. *)
Definition at_end : cont :=
  fun s g => match s with [] => Some g | _ :: _ => None end.

Definition fullmatch (r : regex) (s : pystr) : option captures :=
  rmatch r s ∅ at_end.

(** [re.search(pattern, s)]: the leftmost position where the pattern
    matches a prefix of the remaining text. *)
Definition anywhere : cont := fun _ g => Some g.

Fixpoint search (r : regex) (s : pystr) : option captures :=
  match rmatch r s ∅ anywhere with
  | Some g => Some g
  | None =>
      match s with
      | [] => None
      | _ :: s' => search r s'
      end
  end.

(** ** nl_to_python.py: the minimal translator *)

Module nl_to_python.

(** r'print numbers from (\d+) to (\d+)' *)
Definition range_pattern : regex :=
  Seq (lit "print numbers from ")
    (Seq (Group 1 (Plus CDigit))
       (Seq (lit " to ") (Group 2 (Plus CDigit)))).

(** r'print (.+)' *)
Definition print_pattern : regex :=
  Seq (lit "print ") (Group 1 (Plus CDot)).

Definition not_recognized : pystr := py "# Instruction not recognized".

Definition generate_python_code (instruction : pystr) : result pystr :=
  let instruction := lower instruction in
  (* Rule 1: Print numbers from X to Y *)
  match search range_pattern instruction with
  | Some m =>
      start ← group m 1;
      end_ ← group m 2;
      bound ← py_int end_;
      stop ← str_of_int (bound + 1);
      Ok (py "for i in range(" ++ start ++ py ", " ++ stop ++ py "):"
            ++ newline :: py "    print(i)")
  | None =>
      (* Rule 2: Print a message *)
      match search print_pattern instruction with
      | Some m =>
          message ← group m 1;
          Ok (py "print(" ++ quoted message ++ py ")")
      | None => Ok not_recognized
      end
  end.

End nl_to_python.

(** ** nlp_to_pythoncode.py: the full translator *)

Module nlp_to_pythoncode.

Definition rule : Type := regex * (captures -> result pystr).

(** The conditional expression of patterns 4 and 12:
    ['"{}"'.format(val.strip()) if not val.strip().isdigit() else val.strip()] *)
Definition render_value (val : pystr) : pystr :=
  if negb (isdigit (strip val)) then quoted (strip val) else strip val.

(** PATTERN 1: r"print (.+)" *)
Definition pattern_1 : regex := Seq (lit "print ") (Group 1 (Plus CDot)).
Definition action_1 (m : captures) : result pystr :=
  text ← group m 1; Ok (py "print(" ++ quoted text ++ py ")").

(** PATTERN 2: r"print numbers from (\d+) to (\d+)" *)
Definition pattern_2 : regex :=
  Seq (lit "print numbers from ")
    (Seq (Group 1 (Plus CDigit))
       (Seq (lit " to ") (Group 2 (Plus CDigit)))).
Definition action_2 (m : captures) : result pystr :=
  g1 ← group m 1; start ← py_int g1;
  g2 ← group m 2; stop ← py_int g2;
  first ← str_of_int start;
  last ← str_of_int (stop + 1);
  Ok (py "for i in range(" ++ first ++ py ", " ++ last ++ py "):"
        ++ newline :: py "    print(i)").

(** PATTERN 3: r"(add|subtract|multiply|divide) (\d+) and (\d+)" *)
Definition pattern_3 : regex :=
  Seq (Group 1 (Alt (lit "add") (Alt (lit "subtract")
                  (Alt (lit "multiply") (lit "divide")))))
    (Seq (Chr " ")
       (Seq (Group 2 (Plus CDigit))
          (Seq (lit " and ") (Group 3 (Plus CDigit))))).

(** The dict literal that converts the word to the operator symbol. *)
Definition operator_table : gmap pystr pystr :=
  <[py "add" := py "+"]> (<[py "subtract" := py "-"]>
    (<[py "multiply" := py "*"]> (<[py "divide" := py "/"]> ∅))).

(** [table[key]]: a missing key raises [KeyError]. *)
Definition getitem (table : gmap pystr pystr) (key : pystr) : result pystr :=
  match table !! key with
  | Some v => Ok v
  | None => Raise KeyError
  end.

Definition action_3 (m : captures) : result pystr :=
  first ← group m 2;
  word ← group m 1;
  symbol ← getitem operator_table word;
  second ← group m 3;
  Ok (py "print(" ++ first ++ py " " ++ symbol ++ py " " ++ second ++ py ")").

(** PATTERN 4: r"create list (.+)" *)
Definition pattern_4 : regex := Seq (lit "create list ") (Group 1 (Plus CDot)).
Definition action_4 (m : captures) : result pystr :=
  vals ← group m 1;
  Ok (py "my_list = [" ++ join (py ", ") (map render_value (split "," vals))
        ++ py "]").

(** PATTERN 5: r"append (.+) to list" *)
Definition pattern_5 : regex :=
  Seq (lit "append ") (Seq (Group 1 (Plus CDot)) (lit " to list")).
Definition action_5 (m : captures) : result pystr :=
  item ← group m 1;
  if negb (isdigit item)
  then Ok (py "my_list.append(" ++ quoted item ++ py ")")
  else Ok (py "my_list.append(" ++ item ++ py ")").

(** PATTERN 6: r"sort list" *)
Definition pattern_6 : regex := lit "sort list".
Definition action_6 (_ : captures) : result pystr := Ok (py "my_list.sort()").

(** PATTERN 7: r"print list" *)
Definition pattern_7 : regex := lit "print list".
Definition action_7 (_ : captures) : result pystr := Ok (py "print(my_list)").

(** PATTERN 8: r"square (\d+)" *)
Definition pattern_8 : regex := Seq (lit "square ") (Group 1 (Plus CDigit)).
Definition action_8 (m : captures) : result pystr :=
  n ← group m 1; Ok (py "print(" ++ n ++ py " ** 2)").

(** PATTERN 9: r"create string (.+)" *)
Definition pattern_9 : regex :=
  Seq (lit "create string ") (Group 1 (Plus CDot)).
Definition action_9 (m : captures) : result pystr :=
  text ← group m 1; Ok (py "my_string = " ++ quoted text).

(** PATTERN 10: r"uppercase string" *)
Definition pattern_10 : regex := lit "uppercase string".
Definition action_10 (_ : captures) : result pystr :=
  Ok (py "my_string = my_string.upper()").

(** PATTERN 11: r"print string" *)
Definition pattern_11 : regex := lit "print string".
Definition action_11 (_ : captures) : result pystr :=
  Ok (py "print(my_string)").

(** PATTERN 12: r"create dictionary (.+)" *)
Definition pattern_12 : regex :=
  Seq (lit "create dictionary ") (Group 1 (Plus CDot)).

(** [for key, val in [pair.split(":")]]: unpacking a list that does not
    have exactly two items raises [ValueError]. *)
Definition unpack_pair (items : list pystr) : result (pystr * pystr) :=
  match items with
  | [key; val] => Ok (key, val)
  | _ => Raise ValueError
  end.

Definition render_entry (pair : pystr) : result pystr :=
  kv ← unpack_pair (split ":" pair);
  Ok (quoted (strip kv.1) ++ py ": " ++ render_value kv.2).

Definition action_12 (m : captures) : result pystr :=
  pairs ← group m 1;
  entries ← mapM render_entry (split "," pairs);
  Ok (py "my_dict = {" ++ join (py ", ") entries ++ py "}").

(** PATTERN 13: r"print dictionary" *)
Definition pattern_13 : regex := lit "print dictionary".
Definition action_13 (_ : captures) : result pystr := Ok (py "print(my_dict)").

(** PATTERN 14: r"if (\w+) equals (\d+) then print (.+)" *)
Definition pattern_14 : regex :=
  Seq (lit "if ")
    (Seq (Group 1 (Plus CWord))
       (Seq (lit " equals ")
          (Seq (Group 2 (Plus CDigit))
             (Seq (lit " then print ") (Group 3 (Plus CDot)))))).
Definition action_14 (m : captures) : result pystr :=
  var ← group m 1; value ← group m 2; message ← group m 3;
  Ok (py "if " ++ var ++ py " == " ++ value ++ py ": print("
        ++ quoted message ++ py ")").

(** PATTERN 15: r"loop list" *)
Definition pattern_15 : regex := lit "loop list".
Definition action_15 (_ : captures) : result pystr :=
  Ok (py "for item in my_list:" ++ newline :: py "    print(item)").

(** PATTERN 16: r"ask input (.+)" *)
Definition pattern_16 : regex := Seq (lit "ask input ") (Group 1 (Plus CDot)).
Definition action_16 (m : captures) : result pystr :=
  prompt ← group m 1; Ok (py "user_input = input(" ++ quoted prompt ++ py ")").

(** PATTERN 17: r"help|show commands" *)
Definition pattern_17 : regex := Alt (lit "help") (lit "show commands").
Definition help_text : pystr :=
  join [newline]
    [ py "# Available commands:";
      py "# print [text]  - Print any text";
      py "# print numbers from X to Y - Print range of numbers";
      py "# add/subtract/multiply/divide X and Y - Math operations";
      py "# create list X,Y,Z - Create a list";
      py "# append X to list - Add to list";
      py "# sort list - Sort the list";
      py "# print list - Print the list";
      py "# square X - Square a number";
      py "# create string X - Create a string";
      py "# uppercase string - Convert to uppercase";
      py "# print string - Print the string";
      py "# create dictionary key:value - Create dictionary";
      py "# print dictionary - Print dictionary";
      py "# if X equals Y then print Z - Simple if statement";
      py "# loop list - Loop through list";
      py "# ask input [message] - Get user input";
      py "# help - Show this message" ].
Definition action_17 (_ : captures) : result pystr := Ok help_text.

(** The rule list, in the order of the source: the first match wins. *)
Definition rules : list rule :=
  [ (pattern_1, action_1); (pattern_2, action_2); (pattern_3, action_3);
    (pattern_4, action_4); (pattern_5, action_5); (pattern_6, action_6);
    (pattern_7, action_7); (pattern_8, action_8); (pattern_9, action_9);
    (pattern_10, action_10); (pattern_11, action_11); (pattern_12, action_12);
    (pattern_13, action_13); (pattern_14, action_14); (pattern_15, action_15);
    (pattern_16, action_16); (pattern_17, action_17) ].

Definition please_enter : pystr := py "# Please enter an instruction".
Definition not_understood : pystr :=
  py "# I don't understand. Type 'help' for available commands.".

(** The matching loop with its fallback [return]. *)
Fixpoint apply_rules (rs : list rule) (instruction : pystr) : result pystr :=
  match rs with
  | (pattern, action) :: rest =>
      match fullmatch pattern instruction with
      | Some m => action m
      | None => apply_rules rest instruction
      end
  | [] => Ok not_understood
  end.

(** [instruction.lower().strip()] *)
Definition normalize (instruction : pystr) : pystr := strip (lower instruction).

(** The body of [generate_python_code] over a given rule list. *)
Definition generate_with (rs : list rule) (instruction : pystr)
  : result pystr :=
  let instruction := normalize instruction in
  match instruction with
  | [] => Ok please_enter
  | _ :: _ => apply_rules rs instruction
  end.

Definition generate_python_code (instruction : pystr) : result pystr :=
  generate_with rules instruction.

(** The number (1 to 17, as in the source comments) and the match object of
    the rule the loop stops at, if any. *)
Fixpoint first_match_from (n : nat) (rs : list rule) (instruction : pystr)
  : option (nat * captures) :=
  match rs with
  | (pattern, _) :: rest =>
      match fullmatch pattern instruction with
      | Some m => Some (n, m)
      | None => first_match_from (S n) rest instruction
      end
  | [] => None
  end.

Definition selected_rule (instruction : pystr) : option (nat * captures) :=
  first_match_from 1 rules (normalize instruction).

(** The table of [test_generator]: instruction and expected output. *)
Definition test_cases : list (pystr * pystr) :=
  [ (py "print hello world", py "print(" ++ quoted (py "hello world") ++ py ")");
    (py "print numbers from 1 to 5",
     py "for i in range(1, 6):" ++ newline :: py "    print(i)");
    (py "add 10 and 20", py "print(10 + 20)");
    (py "create list 1,2,3,4,5", py "my_list = [1, 2, 3, 4, 5]");
    (py "append 6 to list", py "my_list.append(6)");
    (py "sort list", py "my_list.sort()");
    (py "print list", py "print(my_list)");
    (py "square 5", py "print(5 ** 2)");
    (py "create string hello python",
     py "my_string = " ++ quoted (py "hello python"));
    (py "uppercase string", py "my_string = my_string.upper()");
    (py "print string", py "print(my_string)");
    (py "create dictionary name:john, age:25",
     py "my_dict = {" ++ quoted (py "name") ++ py ": " ++ quoted (py "john")
       ++ py ", " ++ quoted (py "age") ++ py ": 25}");
    (py "print dictionary", py "print(my_dict)");
    (py "if x equals 10 then print correct",
     py "if x == 10: print(" ++ quoted (py "correct") ++ py ")");
    (py "loop list", py "for item in my_list:" ++ newline :: py "    print(item)");
    (py "ask input Enter your name:",
     py "user_input = input(" ++ quoted (py "Enter your name:") ++ py ")");
    (py "help", py "# Available commands:") ].

(** The check of [test_generator]: [expected in result].  (An exception
    would end the test run; it counts as not passed.) *)
Definition test_passes (tc : pystr * pystr) : bool :=
  match generate_python_code tc.1 with
  | Ok result => contains tc.2 result
  | Raise _ => false
  end.

End nlp_to_pythoncode.

(** ** Reference semantics of the patterns

    [matches r s g g']: the whole text [s] belongs to the language of [r],
    and matching it turns the groups [g] into [g']. *)

Definition all_in (cl : cclass) (s : pystr) : Prop :=
  Forall (fun c => in_class cl c = true) s.

Inductive matches : regex -> pystr -> captures -> captures -> Prop :=
  | M_Eps g : matches Eps [] g g
  | M_Chr c g : matches (Chr c) [c] g g
  | M_Seq r1 r2 s1 s2 g g' g'' :
      matches r1 s1 g g' -> matches r2 s2 g' g'' ->
      matches (Seq r1 r2) (s1 ++ s2) g g''
  | M_AltL r1 r2 s g g' : matches r1 s g g' -> matches (Alt r1 r2) s g g'
  | M_AltR r1 r2 s g g' : matches r2 s g g' -> matches (Alt r1 r2) s g g'
  | M_Plus cl s g : s <> [] -> all_in cl s -> matches (Plus cl) s g g
  | M_Group i r s g g' :
      matches r s g g' -> matches (Group i r) s g (<[i := s]> g').

#[local] Hint Constructors matches : core.

(** Text that does not start with '#', the first character of the two
    fixed answers of the full translator and of its help text. *)
Definition plain_code (out : pystr) : Prop :=
  exists c rest, out = c :: rest /\ c <> "#"%char.

(** The number a text of decimal digits denotes, by positional notation:
    the digit with code [48 + d] that has [k] digits after it counts for
    [d * 10 ^ k]. *)
Fixpoint decimal_value (s : pystr) : Z :=
  match s with
  | [] => 0
  | c :: s' =>
      ((Z.of_nat (nat_of_ascii c) - 48) * 10 ^ Z.of_nat (length s')
       + decimal_value s')%Z
  end.

(** [text] is the decimal numeral of the positive number [n]: digits 0-9
    only (character codes 48 to 57), no leading zero, denoting [n]. *)
Definition numeral_of (n : Z) (text : pystr) : Prop :=
  Forall (fun c => 48 <= nat_of_ascii c <= 57) text
  /\ (exists c rest, text = c :: rest /\ c <> "0"%char)
  /\ decimal_value text = n.

(** ** Strings: auxiliary facts *)

Section StringFacts.

Lemma is_space_lower_char (c : ascii) : is_space (lower_char c) = is_space c.
Proof. destruct c as [[] [] [] [] [] [] [] []]; reflexivity. Qed.

Lemma lstrip_blank (s : pystr) :
  Forall (fun c => is_space c = true) s -> lstrip s = [].
Proof.
  induction 1 as [|c s Hc _ IH]; simpl; [reflexivity|].
  rewrite Hc. exact IH.
Qed.

Lemma strip_blank (s : pystr) :
  Forall (fun c => is_space c = true) s -> strip s = [].
Proof. intros H. unfold strip, rstrip. rewrite (lstrip_blank s H). reflexivity. Qed.

Lemma lower_blank (s : pystr) :
  Forall (fun c => is_space c = true) s ->
  Forall (fun c => is_space c = true) (lower s).
Proof.
  unfold lower. induction 1 as [|c s Hc _ IH]; simpl; constructor; auto.
  rewrite is_space_lower_char. exact Hc.
Qed.

(** [split] cuts at every separator: one piece more than separators. *)
Lemma split_length (sep : ascii) (s : pystr) :
  length (split sep s) = S (count_occ ascii_dec s sep).
Proof.
  induction s as [|c s IH]; simpl; [reflexivity|].
  destruct (Ascii.eqb_spec c sep) as [->|Hne].
  - simpl. rewrite IH. destruct (ascii_dec sep sep); congruence.
  - destruct (ascii_dec c sep); [congruence|].
    destruct (split sep s) eqn:E; simpl in *; [discriminate|exact IH].
Qed.

Lemma take_consumed (s1 s2 : pystr) :
  take (length (s1 ++ s2) - length s2) (s1 ++ s2) = s1.
Proof.
  rewrite length_app, Nat.add_sub. apply take_app_length.
Qed.

End StringFacts.

(** ** The matcher against the reference semantics *)

Section Matcher.

Lemma greedy_sound cl s g k out :
  greedy cl s g k = Some out ->
  exists s1 s2, s = s1 ++ s2 /\ all_in cl s1 /\ k s2 g = Some out.
Proof.
  induction s as [|c s IH]; simpl; intros H.
  - exists [], []. repeat split; [constructor|exact H].
  - destruct (in_class cl c) eqn:Hc.
    + destruct (greedy cl s g k) as [o|] eqn:E.
      * destruct (IH H) as (s1 & s2 & -> & Hall & Hk).
        exists (c :: s1), s2. repeat split; [constructor; assumption|].
        exact Hk.
      * exists [], (c :: s). repeat split; [constructor|exact H].
    + exists [], (c :: s). repeat split; [constructor|exact H].
Qed.

(** Whatever the matcher accepts is a prefix in the language of the
    pattern, followed by a text its continuation accepts. *)
Lemma rmatch_sound r : forall s g k out,
  rmatch r s g k = Some out ->
  exists s1 s2 g', s = s1 ++ s2 /\ matches r s1 g g' /\ k s2 g' = Some out.
Proof.
  induction r as [|c|r1 IH1 r2 IH2|r1 IH1 r2 IH2|cl|i r IH];
    simpl; intros s g k out H.
  - exists [], s, g. auto.
  - destruct s as [|c' s]; [discriminate|].
    destruct (Ascii.eqb_spec c c') as [<-|]; [|discriminate].
    exists [c], s, g. auto.
  - apply IH1 in H as (s1 & s2 & g1 & -> & M1 & H).
    apply IH2 in H as (s3 & s4 & g2 & -> & M2 & H).
    exists (s1 ++ s3), s4, g2. rewrite <- app_assoc. eauto.
  - destruct (rmatch r1 s g k) as [o|] eqn:E.
    + apply IH1 in E as (s1 & s2 & g1 & -> & M1 & Hk).
      exists s1, s2, g1. split; [reflexivity|]. split; [auto|congruence].
    + apply IH2 in H as (s1 & s2 & g1 & -> & M2 & Hk).
      exists s1, s2, g1. auto.
  - destruct s as [|c s]; [discriminate|].
    destruct (in_class cl c) eqn:Hc; [|discriminate].
    apply greedy_sound in H as (s1 & s2 & -> & Hall & Hk).
    exists (c :: s1), s2, g. repeat split; [|exact Hk].
    apply M_Plus; [discriminate|constructor; assumption].
  - apply IH in H as (s1 & s2 & g1 & -> & M1 & Hk).
    rewrite take_consumed in Hk.
    exists s1, s2, (<[i := s1]> g1). auto.
Qed.

Lemma greedy_fallback cl s g k :
  is_Some (k s g) -> is_Some (greedy cl s g k).
Proof.
  intros Hk. destruct s as [|c s]; simpl; [exact Hk|].
  destruct (in_class cl c); [|exact Hk].
  destruct (greedy cl s g k); [eauto|exact Hk].
Qed.

Lemma greedy_complete cl s1 : forall s2 g k,
  all_in cl s1 -> is_Some (k s2 g) -> is_Some (greedy cl (s1 ++ s2) g k).
Proof.
  induction s1 as [|c s1 IH]; simpl; intros s2 g k Hall Hk.
  - apply greedy_fallback, Hk.
  - inversion Hall as [|? ? Hc Hrest]; subst. rewrite Hc.
    destruct (IH s2 g k Hrest Hk) as [o ->]. eauto.
Qed.

(** Backtracking loses nothing: a text in the language, followed by a text
    the continuation accepts, is accepted. *)
Lemma rmatch_complete r s1 g g' :
  matches r s1 g g' ->
  forall h s2 k, (forall h', is_Some (k s2 h')) ->
    is_Some (rmatch r (s1 ++ s2) h k).
Proof.
  induction 1 as [g|c g|r1 r2 s1 s3 g g1 g2 _ IH1 _ IH2
                 |r1 r2 s g g1 _ IH|r1 r2 s g g1 _ IH|cl s g Hne Hall
                 |i r s g g1 _ IH]; intros h s2 k Hk; simpl.
  - apply Hk.
  - rewrite Ascii.eqb_refl. apply Hk.
  - rewrite <- app_assoc. apply IH1. intros h'. apply IH2, Hk.
  - destruct (IH h s2 k Hk) as [o ->]. eauto.
  - destruct (rmatch r1 (s ++ s2) h k); [eauto|]. apply IH, Hk.
  - destruct s as [|c s]; [congruence|]. simpl.
    inversion Hall as [|? ? Hc Hrest]; subst. rewrite Hc.
    apply greedy_complete; [exact Hrest|apply Hk].
  - apply IH. intros h'. apply Hk.
Qed.

Lemma fullmatch_sound r s m : fullmatch r s = Some m -> matches r s ∅ m.
Proof.
  unfold fullmatch. intros H.
  apply rmatch_sound in H as (s1 & s2 & g' & -> & M & Hk).
  destruct s2; simpl in Hk; [|discriminate].
  rewrite app_nil_r. congruence.
Qed.

Lemma fullmatch_complete r s g g' :
  matches r s g g' -> is_Some (fullmatch r s).
Proof.
  intros M. unfold fullmatch. rewrite <- (app_nil_r s).
  apply (rmatch_complete _ _ _ _ M). intros h'. simpl. eauto.
Qed.

End Matcher.

(** ** Patterns of the shape  literal (cl+)  and literal words *)

Section Shapes.

Lemma rmatch_lit_chars l : forall s g k,
  rmatch (lit_chars l) (l ++ s) g k = k s g.
Proof.
  induction l as [|c l IH]; intros s g k; simpl; [reflexivity|].
  rewrite Ascii.eqb_refl. apply IH.
Qed.

Lemma matches_lit_chars_inv l : forall s g g',
  matches (lit_chars l) s g g' -> s = l /\ g' = g.
Proof.
  induction l as [|c l IH]; simpl; intros s g g' M.
  - inversion M; subst; auto.
  - inversion M as [| |? ? s1 s2 ? g1 ? M1 M2| | | |]; subst.
    inversion M1; subst.
    apply IH in M2 as [-> ->]. auto.
Qed.

Lemma matches_plus_group_inv i cl s g g' :
  matches (Group i (Plus cl)) s g g' ->
  s <> [] /\ all_in cl s /\ g' = <[i := s]> g.
Proof.
  intros M. inversion M as [| | | | | |? ? ? ? g1 M1]; subst.
  inversion M1; subst. auto.
Qed.

Lemma matches_lit_group_inv l i cl s g g' :
  matches (Seq (lit_chars l) (Group i (Plus cl))) s g g' ->
  exists rest,
    s = l ++ rest /\ rest <> [] /\ all_in cl rest /\ g' = <[i := rest]> g.
Proof.
  intros M. inversion M as [| |? ? s1 s2 ? g1 ? M1 M2| | | |]; subst.
  apply matches_lit_chars_inv in M1 as [-> ->].
  apply matches_plus_group_inv in M2 as (Hne & Hall & ->).
  exists s2. auto.
Qed.

(** A greedy [cl+] over a text wholly in the class reads all of it, when
    the rest of the pattern accepts the end of the text. *)
Lemma greedy_takes_all cl s g k :
  all_in cl s -> is_Some (k [] g) -> greedy cl s g k = k [] g.
Proof.
  intros Hall Hk. induction Hall as [|c s Hc _ IH]; simpl; [reflexivity|].
  rewrite Hc, IH. destruct Hk as [o ->]. reflexivity.
Qed.

Lemma rmatch_lit_group l i cl rest g k :
  rest <> [] -> all_in cl rest -> is_Some (k [] (<[i := rest]> g)) ->
  rmatch (Seq (lit_chars l) (Group i (Plus cl))) (l ++ rest) g k
  = k [] (<[i := rest]> g).
Proof.
  intros Hne Hall Hk. simpl. rewrite rmatch_lit_chars.
  destruct rest as [|c rest]; [congruence|].
  inversion Hall as [|? ? Hc Hrest]; subst. rewrite Hc.
  rewrite greedy_takes_all; simpl; rewrite ?firstn_all; auto.
Qed.

Lemma fullmatch_lit_group l i cl rest :
  rest <> [] -> all_in cl rest ->
  fullmatch (Seq (lit_chars l) (Group i (Plus cl))) (l ++ rest)
  = Some (<[i := rest]> ∅).
Proof.
  intros Hne Hall. unfold fullmatch.
  rewrite rmatch_lit_group; simpl; eauto.
Qed.

Lemma fullmatch_lit_group_inv l i cl s m :
  fullmatch (Seq (lit_chars l) (Group i (Plus cl))) s = Some m ->
  exists rest,
    s = l ++ rest /\ rest <> [] /\ all_in cl rest /\ m = <[i := rest]> ∅.
Proof. intros H. apply fullmatch_sound in H. apply matches_lit_group_inv, H. Qed.

Lemma digit_is_dot (c : ascii) : is_digit c = true -> in_class CDot c = true.
Proof.
  destruct c as [[] [] [] [] [] [] [] []]; vm_compute; congruence.
Qed.

Lemma all_digits_dot (s : pystr) : all_in CDigit s -> all_in CDot s.
Proof.
  unfold all_in. induction 1; constructor; auto using digit_is_dot.
Qed.

Lemma all_in_dot_iff (s : pystr) :
  all_in CDot s <-> Forall (fun c => c <> newline) s.
Proof.
  unfold all_in. apply Forall_iff. intros c. simpl.
  destruct (Ascii.eqb_spec c newline); simpl; split; congruence.
Qed.

End Shapes.

(** ** The matching loop *)

Section Loop.

Import nlp_to_pythoncode.

Lemma apply_rules_none rs n :
  Forall (fun r : rule => fullmatch r.1 n = None) rs ->
  apply_rules rs n = Ok not_understood.
Proof.
  induction 1 as [|[p a] rs Hp _ IH]; simpl; [reflexivity|].
  simpl in Hp. rewrite Hp. exact IH.
Qed.

Lemma apply_rules_skip p a rs n :
  fullmatch p n = None -> apply_rules ((p, a) :: rs) n = apply_rules rs n.
Proof. intros H. simpl. rewrite H. reflexivity. Qed.

(** The loop stops at the first rule whose pattern the text matches. *)
Lemma first_match_from_inv rs n : forall k j m,
  first_match_from k rs n = Some (j, m) ->
  k <= j /\
  exists p a,
    rs !! (j - k) = Some (p, a) /\ fullmatch p n = Some m /\
    forall i p' a', i < j - k -> rs !! i = Some (p', a') ->
      fullmatch p' n = None.
Proof.
  induction rs as [|[p a] rs IH]; simpl; intros k j m H; [discriminate|].
  destruct (fullmatch p n) as [m0|] eqn:E.
  - injection H as <- <-. split; [lia|]. rewrite Nat.sub_diag.
    exists p, a. repeat split; [exact E|]. intros; lia.
  - apply IH in H as (Hle & p1 & a1 & Hl & Hm & Hbefore).
    split; [lia|]. replace (j - k) with (S (j - S k)) by lia.
    exists p1, a1. repeat split; [exact Hl|exact Hm|].
    intros [|i] p' a' Hi Hi'; simpl in Hi'.
    + congruence.
    + apply (Hbefore i p' a'); [lia|exact Hi'].
Qed.

Lemma apply_rules_first_match rs n : forall k,
  apply_rules rs n =
  match first_match_from k rs n with
  | Some (j, m) =>
      match rs !! (j - k) with
      | Some (_, action) => action m
      | None => Ok not_understood
      end
  | None => Ok not_understood
  end.
Proof.
  induction rs as [|[p a] rs IH]; simpl; intros k; [reflexivity|].
  destruct (fullmatch p n) as [m0|] eqn:E.
  - rewrite Nat.sub_diag. reflexivity.
  - rewrite (IH (S k)).
    destruct (first_match_from (S k) rs n) as [[j m]|] eqn:F; [|reflexivity].
    apply first_match_from_inv in F as (Hle & _).
    replace (j - k) with (S (j - S k)) by lia. reflexivity.
Qed.


End Loop.

Import nlp_to_pythoncode.

(** ** Taking a match apart *)

Section Inversion.

Lemma matches_seq_inv r1 r2 s g g'' :
  matches (Seq r1 r2) s g g'' ->
  exists s1 s2 g',
    s = s1 ++ s2 /\ matches r1 s1 g g' /\ matches r2 s2 g' g''.
Proof. intros M. inversion M; subst. eauto 7. Qed.

Lemma matches_alt_inv r1 r2 s g g' :
  matches (Alt r1 r2) s g g' -> matches r1 s g g' \/ matches r2 s g g'.
Proof. intros M. inversion M; subst; auto. Qed.

Lemma matches_group_inv i r s g g' :
  matches (Group i r) s g g' -> exists h, matches r s g h /\ g' = <[i := s]> h.
Proof. intros M. inversion M; subst. eauto. Qed.

Lemma matches_chr_inv c s g g' :
  matches (Chr c) s g g' -> s = [c] /\ g' = g.
Proof. intros M. inversion M; subst. auto. Qed.

Lemma matches_lit_inv w s g g' :
  matches (lit w) s g g' -> s = py w /\ g' = g.
Proof. apply matches_lit_chars_inv. Qed.

End Inversion.

Ltac take_apart :=
  repeat match goal with
  | H : matches (lit _) _ _ _ |- _ =>
      apply matches_lit_inv in H as [-> ->]
  | H : matches (Chr _) _ _ _ |- _ =>
      apply matches_chr_inv in H as [-> ->]
  | H : matches (Group _ (Plus _)) _ _ _ |- _ =>
      apply matches_plus_group_inv in H as (? & ? & ->)
  | H : matches (Group _ _) _ _ _ |- _ =>
      apply matches_group_inv in H as (? & H & ->)
  | H : matches (Seq _ _) _ _ _ |- _ =>
      apply matches_seq_inv in H as (? & ? & ? & -> & ? & ?)
  | H : matches (Alt _ _) _ _ _ |- _ =>
      apply matches_alt_inv in H as [H|H]
  end.

(** ** The free-text print rule and the rules behind it *)

Section Shadowing.

Lemma generate_nonempty rs s :
  normalize s <> [] -> generate_with rs s = apply_rules rs (normalize s).
Proof. unfold generate_with. destruct (normalize s); congruence. Qed.

Lemma pattern_1_accepts rest :
  rest <> [] -> all_in CDot rest ->
  fullmatch pattern_1 (py "print " ++ rest) = Some (<[1 := rest]> ∅).
Proof. apply fullmatch_lit_group. Qed.

Lemma action_1_renders rest :
  action_1 (<[1 := rest]> ∅) = Ok (py "print(" ++ quoted rest ++ py ")").
Proof. unfold action_1, group. rewrite lookup_insert_eq. reflexivity. Qed.

Lemma generate_free_text s rest :
  normalize s = py "print " ++ rest -> rest <> [] ->
  Forall (fun c => c <> newline) rest ->
  generate_python_code s = Ok (py "print(" ++ quoted rest ++ py ")").
Proof.
  intros Hn Hne Hnl. unfold generate_python_code.
  rewrite generate_nonempty by (rewrite Hn; discriminate).
  rewrite Hn. unfold rules. cbn [apply_rules].
  rewrite pattern_1_accepts by (try apply all_in_dot_iff; assumption).
  apply action_1_renders.
Qed.

(** What ['"{}"'.format(s)] puts around the text, spelled out. *)
Lemma quoted_app (s tail : pystr) :
  quoted s ++ tail = "034"%char :: s ++ "034"%char :: tail.
Proof. unfold quoted, dquote. simpl. rewrite <- app_assoc. reflexivity. Qed.

Lemma search_here r s g :
  rmatch r s ∅ anywhere = Some g -> search r s = Some g.
Proof. intros H. destruct s; simpl; rewrite H; reflexivity. Qed.

Lemma pattern_2_shadowed n m :
  fullmatch pattern_2 n = Some m -> is_Some (fullmatch pattern_1 n).
Proof.
  intros H. apply fullmatch_sound in H. unfold pattern_2 in H. take_apart.
  match goal with
  | |- is_Some (fullmatch _ (_ ++ ?d1 ++ _ ++ ?d2)) =>
      change (is_Some (fullmatch pattern_1
        (py "print " ++ (py "numbers from " ++ d1 ++ py " to " ++ d2))))
  end.
  rewrite pattern_1_accepts; [eauto|discriminate|].
  repeat (apply Forall_app; split);
    try (apply all_digits_dot; assumption); repeat constructor.
Qed.

Lemma literal_shadowed w n m :
  fullmatch (lit w) n = Some m ->
  is_Some (fullmatch pattern_1 (py w)) ->
  is_Some (fullmatch pattern_1 n).
Proof.
  intros H Hw. apply fullmatch_sound, matches_lit_inv in H as [-> _]. exact Hw.
Qed.

End Shadowing.

(** The entries of the program's own test table that its check rejects:
    the four instructions that pattern 1 takes away from patterns 2, 7, 11
    and 13, and the prompt whose capital letter is lost in [lower]. *)
Lemma rejected_tests :
  map fst (filter (fun tc => negb (test_passes tc)) test_cases)
  = [ py "print numbers from 1 to 5"; py "print list"; py "print string";
      py "print dictionary"; py "ask input Enter your name:" ].
Proof. vm_compute. reflexivity. Qed.

(** * The claims *)

(** C1 (defect of the code).  On "print list" the loop stops at pattern 1,
    the free-text print, which stands before pattern 7: the result is the
    quoted text, not [print(my_list)] as the rule for "print list" (and the
    program's own test table) would give. *)
Theorem C1_print_list_answered_by_free_text_rule :
  generate_python_code (py "print list")
    = Ok (py "print(" ++ quoted (py "list") ++ py ")")
  /\ generate_python_code (py "print list") <> Ok (py "print(my_list)")
  /\ selected_rule (py "print list") = Some (1, <[1 := py "list"]> ∅)
  /\ (exists m, fullmatch pattern_7 (py "print list") = Some m
                /\ action_7 m = Ok (py "print(my_list)"))
  /\ In (py "print list", py "print(my_list)") test_cases
  /\ test_passes (py "print list", py "print(my_list)") = false.
Proof.
  split; [vm_compute; reflexivity|].
  split; [vm_compute; discriminate|].
  split; [vm_compute; reflexivity|].
  split; [eexists; split; vm_compute; reflexivity|].
  split; [|vm_compute; reflexivity].
  unfold test_cases. do 6 right. left. reflexivity.
Qed.

(** C2 (defect of the code).  On "print numbers from 1 to 5" the loop stops
    at pattern 1 and prints the text; pattern 2, had it been reached, gives
    the loop with the synthesized bound 6. *)
Theorem C2_print_numbers_answered_by_free_text_rule :
  generate_python_code (py "print numbers from 1 to 5")
    = Ok (py "print(" ++ quoted (py "numbers from 1 to 5") ++ py ")")
  /\ generate_python_code (py "print numbers from 1 to 5")
       <> Ok (py "for i in range(1, 6):" ++ newline :: py "    print(i)")
  /\ (exists m, fullmatch pattern_2 (py "print numbers from 1 to 5") = Some m
                /\ action_2 m
                   = Ok (py "for i in range(1, 6):"
                           ++ newline :: py "    print(i)"))
  /\ In (py "print numbers from 1 to 5",
         py "for i in range(1, 6):" ++ newline :: py "    print(i)")
        test_cases
  /\ test_passes (py "print numbers from 1 to 5",
                  py "for i in range(1, 6):" ++ newline :: py "    print(i)")
     = false.
Proof.
  split; [vm_compute; reflexivity|].
  split; [vm_compute; discriminate|].
  split; [eexists; split; vm_compute; reflexivity|].
  split; [|vm_compute; reflexivity].
  unfold test_cases. right. left. reflexivity.
Qed.

(** C3, as the claim states it, fails when the text after "print " holds a
    newline: [.] does not match it, so no rule applies. *)
Lemma C3_newline_in_text :
  normalize (py "print a" ++ newline :: py "b")
    = py "print " ++ (py "a" ++ newline :: py "b")
  /\ generate_python_code (py "print a" ++ newline :: py "b")
     = Ok not_understood
  /\ generate_python_code (py "print a" ++ newline :: py "b")
     <> Ok (py "print(" ++ "034"%char :: (py "a" ++ newline :: py "b")
              ++ "034"%char :: py ")").
Proof.
  split; [vm_compute; reflexivity|].
  split; [vm_compute; reflexivity|vm_compute; discriminate].
Qed.

(** C3 (amended).  When the normalized instruction is "print " followed by
    at least one character, none of them a newline, the result is exactly
    [print("<rest>")]: the text print( , a quotation mark (character 34),
    the rest as it stands, a quotation mark, and ) ; and for no instruction
    does the loop stop at pattern 2 (print numbers), 7 (print list),
    11 (print string) or 13 (print dictionary). *)
Theorem C3_free_text_print_first (s : pystr) :
  (forall rest,
     normalize s = py "print " ++ rest -> rest <> [] ->
     Forall (fun c => c <> newline) rest ->
     generate_python_code s
     = Ok (py "print(" ++ "034"%char :: rest ++ "034"%char :: py ")"))
  /\ (forall j m,
        selected_rule s = Some (j, m) ->
        j <> 2 /\ j <> 7 /\ j <> 11 /\ j <> 13).
Proof.
  split.
  - intros rest Hn Hne Hnl.
    rewrite (generate_free_text s rest Hn Hne Hnl), quoted_app. reflexivity.
  - intros j m H. unfold selected_rule in H.
    apply first_match_from_inv in H as (Hle & p & a & Hl & Hm & Hbefore).
    assert (Hfirst : 1 < j -> fullmatch pattern_1 (normalize s) = None).
    { intros Hj. apply (Hbefore 0 pattern_1 action_1); [lia|reflexivity]. }
    assert (Hno : 1 < j -> ~ is_Some (fullmatch pattern_1 (normalize s))).
    { intros Hj [x Hx]. rewrite (Hfirst Hj) in Hx. discriminate. }
    repeat split; intros ->; simpl in Hl; injection Hl as <- <-;
      apply Hno; try lia.
    + eapply pattern_2_shadowed, Hm.
    + eapply literal_shadowed; [exact Hm|vm_compute; eauto].
    + eapply literal_shadowed; [exact Hm|vm_compute; eauto].
    + eapply literal_shadowed; [exact Hm|vm_compute; eauto].
Qed.

Lemma C3_free_text_print_first_witness :
  generate_python_code (py "Print Hello ")
    = Ok (py "print(" ++ "034"%char :: py "hello" ++ "034"%char :: py ")")
  /\ (1 <> 2 /\ 1 <> 7 /\ 1 <> 11 /\ 1 <> 13).
Proof.
  split.
  - apply (proj1 (C3_free_text_print_first (py "Print Hello ")) (py "hello")).
    + vm_compute; reflexivity.
    + discriminate.
    + repeat constructor; discriminate.
  - apply (proj2 (C3_free_text_print_first (py "Print Hello "))
             1 (<[1 := py "hello"]> ∅)).
    vm_compute; reflexivity.
Defined.

(** C5.  A non-empty normalized instruction that no rule's pattern matches
    is answered by the marker, as an ordinary return value. *)
Theorem C5_unmatched_instruction_gets_marker (s : pystr) :
  normalize s <> [] ->
  Forall (fun r : rule => fullmatch r.1 (normalize s) = None) rules ->
  generate_python_code s = Ok not_understood.
Proof.
  intros Hne Hnone. unfold generate_python_code.
  rewrite generate_nonempty by exact Hne.
  apply apply_rules_none, Hnone.
Qed.

Lemma C5_unmatched_instruction_gets_marker_witness :
  generate_python_code (py "do a backflip")
  = Ok (py "# I don't understand. Type 'help' for available commands.").
Proof.
  apply (C5_unmatched_instruction_gets_marker (py "do a backflip")).
  - vm_compute; discriminate.
  - unfold rules. repeat (constructor; [vm_compute; reflexivity|]).
    constructor.
Defined.



(** C9.  An instruction that is empty or all blanks (so that nothing is left
    of it after lower-casing and stripping) is answered by the fixed
    "# Please enter an instruction", whatever the rule table holds. *)
Theorem C9_blank_instruction (rs : list rule) (s : pystr) :
  Forall (fun c => is_space c = true) s \/ normalize s = [] ->
  generate_with rs s = Ok (py "# Please enter an instruction").
Proof.
  intros H.
  assert (Hn : normalize s = []).
  { destruct H as [H|H]; [|exact H].
    unfold normalize. apply strip_blank, lower_blank, H. }
  unfold generate_with. rewrite Hn. reflexivity.
Qed.

Lemma C9_blank_instruction_witness :
  generate_python_code (py "   ") = Ok (py "# Please enter an instruction")
  /\ generate_with [] [] = Ok (py "# Please enter an instruction").
Proof.
  split.
  - apply (C9_blank_instruction rules (py "   ")).
    left. repeat constructor.
  - apply (C9_blank_instruction [] []). right. reflexivity.
Defined.



(** ** Arithmetic and dictionary rules *)

Section Synthesis.

(** What pattern 3 accepts, and the groups it binds. *)
Lemma pattern_3_inv n m :
  fullmatch pattern_3 n = Some m ->
  exists word symbol first second,
    In (word, symbol)
       [(py "add", py "+"); (py "subtract", py "-");
        (py "multiply", py "*"); (py "divide", py "/")]
    /\ first <> [] /\ all_in CDigit first
    /\ second <> [] /\ all_in CDigit second
    /\ n = word ++ py " " ++ first ++ py " and " ++ second
    /\ m = <[3 := second]> (<[2 := first]> (<[1 := word]> ∅)).
Proof.
  intros H. apply fullmatch_sound in H. unfold pattern_3 in H. take_apart.
  - exists (py "add"), (py "+"). do 2 eexists.
    split; [simpl; auto|]. repeat split; eauto.
  - exists (py "subtract"), (py "-"). do 2 eexists.
    split; [simpl; auto|]. repeat split; eauto.
  - exists (py "multiply"), (py "*"). do 2 eexists.
    split; [simpl; auto|]. repeat split; eauto.
  - exists (py "divide"), (py "/"). do 2 eexists.
    split; [simpl; auto 6|]. repeat split; eauto.
Qed.

Lemma render_entry_malformed pair :
  count_occ ascii_dec pair ":"%char <> 1 -> render_entry pair = Raise ValueError.
Proof.
  intros Hc. unfold render_entry.
  pose proof (split_length ":" pair) as Hl.
  destruct (split ":" pair) as [|k [|v [|x l]]]; simpl in *;
    try reflexivity; lia.
Qed.

Lemma render_entry_raises pair e :
  render_entry pair = Raise e -> e = ValueError.
Proof.
  unfold render_entry.
  destruct (split ":" pair) as [|k [|v [|x l]]]; simpl; congruence.
Qed.

Lemma mapM_render_entry_malformed pairs :
  Exists (fun pair => count_occ ascii_dec pair ":"%char <> 1) pairs ->
  mapM render_entry pairs = Raise ValueError.
Proof.
  induction 1 as [pair pairs Hbad|pair pairs _ IH]; simpl.
  - rewrite (render_entry_malformed pair Hbad). reflexivity.
  - rewrite IH. destruct (render_entry pair) as [entry|e] eqn:E; simpl.
    + reflexivity.
    + apply render_entry_raises in E as ->. reflexivity.
Qed.

End Synthesis.

(** C10.  Whenever pattern 3 matches the normalized instruction, group 1 is
    one of the four keywords, the operator table has an entry for it, and
    the action returns [print(<first> <symbol> <second>)] with the symbol
    of that keyword; this is also the result of the translator. *)
Theorem C10_arithmetic_keyword_always_found (s : pystr) (m : captures) :
  fullmatch pattern_3 (normalize s) = Some m ->
  exists word symbol first second,
    m !! 1 = Some word /\ m !! 2 = Some first /\ m !! 3 = Some second
    /\ In (word, symbol)
          [(py "add", py "+"); (py "subtract", py "-");
           (py "multiply", py "*"); (py "divide", py "/")]
    /\ operator_table !! word = Some symbol
    /\ action_3 m
       = Ok (py "print(" ++ first ++ py " " ++ symbol ++ py " " ++ second
               ++ py ")")
    /\ generate_python_code s = action_3 m.
Proof.
  intros H.
  destruct (pattern_3_inv _ _ H)
    as (word & symbol & first & second & Hin & Hf & _ & Hs & _ & Hn & Hm).
  assert (Htable : operator_table !! word = Some symbol).
  { simpl in Hin.
    destruct Hin as [E|[E|[E|[E|[]]]]]; injection E as <- <-;
      vm_compute; reflexivity. }
  assert (Hskip : fullmatch pattern_1 (normalize s) = None
                  /\ fullmatch pattern_2 (normalize s) = None).
  { rewrite Hn. simpl in Hin.
    destruct Hin as [E|[E|[E|[E|[]]]]]; injection E as <- <-;
      split; reflexivity. }
  exists word, symbol, first, second.
  assert (H1 : m !! 1 = Some word).
  { rewrite Hm. rewrite !lookup_insert_ne by lia. apply lookup_insert_eq. }
  assert (H2 : m !! 2 = Some first).
  { rewrite Hm. rewrite lookup_insert_ne by lia. apply lookup_insert_eq. }
  assert (H3 : m !! 3 = Some second).
  { rewrite Hm. apply lookup_insert_eq. }
  repeat split; try assumption.
  - unfold action_3, group, getitem.
    rewrite H2; simpl. rewrite H1; simpl. rewrite Htable; simpl.
    rewrite H3. reflexivity.
  - unfold generate_python_code.
    rewrite generate_nonempty.
    + unfold rules. destruct Hskip as [S1 S2].
      rewrite (apply_rules_skip _ _ _ _ S1), (apply_rules_skip _ _ _ _ S2).
      simpl. rewrite H. reflexivity.
    + rewrite Hn. simpl in Hin.
      destruct Hin as [E|[E|[E|[E|[]]]]]; injection E as <- <-; discriminate.
Qed.

Lemma C10_arithmetic_keyword_always_found_witness :
  exists word symbol first second,
    (<[3 := py "6"]> (<[2 := py "4"]> (<[1 := py "multiply"]> ∅))
       : captures) !! 1 = Some word
    /\ (<[3 := py "6"]> (<[2 := py "4"]> (<[1 := py "multiply"]> ∅))
          : captures) !! 2 = Some first
    /\ (<[3 := py "6"]> (<[2 := py "4"]> (<[1 := py "multiply"]> ∅))
          : captures) !! 3 = Some second
    /\ In (word, symbol)
          [(py "add", py "+"); (py "subtract", py "-");
           (py "multiply", py "*"); (py "divide", py "/")]
    /\ operator_table !! word = Some symbol
    /\ action_3 (<[3 := py "6"]> (<[2 := py "4"]> (<[1 := py "multiply"]> ∅)))
       = Ok (py "print(" ++ first ++ py " " ++ symbol ++ py " " ++ second
               ++ py ")")
    /\ generate_python_code (py "Multiply 4 and 6")
       = action_3 (<[3 := py "6"]> (<[2 := py "4"]> (<[1 := py "multiply"]> ∅))).
Proof.
  apply (C10_arithmetic_keyword_always_found (py "Multiply 4 and 6")).
  vm_compute; reflexivity.
Defined.

(** C7.  When pattern 12 matches and one of the comma-separated pairs of its
    group does not hold exactly one ':', the translator ends with the
    [ValueError] raised by the unpacking inside the action: it returns
    neither the marker nor any code. *)
Theorem C7_malformed_pair_raises (s : pystr) (m : captures) (pairs : pystr) :
  fullmatch pattern_12 (normalize s) = Some m ->
  m !! 1 = Some pairs ->
  Exists (fun pair => count_occ ascii_dec pair ":"%char <> 1)
         (split "," pairs) ->
  generate_python_code s = Raise ValueError.
Proof.
  intros H Hg Hbad.
  destruct (fullmatch_lit_group_inv _ _ _ _ _ H)
    as (rest & Hn & Hne & Hall & Hm).
  rewrite Hm, lookup_insert_eq in Hg. injection Hg as ->.
  unfold generate_python_code.
  rewrite generate_nonempty by (rewrite Hn; discriminate).
  unfold rules.
  do 11 (rewrite apply_rules_skip by (rewrite Hn; reflexivity)).
  simpl. rewrite H, Hm.
  unfold action_12, group. rewrite lookup_insert_eq. simpl.
  rewrite (mapM_render_entry_malformed _ Hbad). reflexivity.
Qed.

Lemma C7_malformed_pair_raises_witness :
  generate_python_code (py "create dictionary name:john, age")
  = Raise ValueError.
Proof.
  apply (C7_malformed_pair_raises
           (py "create dictionary name:john, age")
           (<[1 := py "name:john, age"]> ∅)
           (py "name:john, age")).
  - vm_compute; reflexivity.
  - vm_compute; reflexivity.
  - apply Exists_cons_tl, Exists_cons_hd. vm_compute. lia.
Defined.

(** C4, as the claim states it, fails: the minimal translator searches
    inside the text, the full one wants the whole text to match. *)
Lemma C4_search_inside_the_text :
  nl_to_python.generate_python_code (py "please print hello")
    = Ok (py "print(" ++ "034"%char :: py "hello" ++ "034"%char :: py ")")
  /\ nl_to_python.generate_python_code (py "please print hello")
     <> Ok nl_to_python.not_recognized
  /\ generate_python_code (py "please print hello") = Ok not_understood
  /\ generate_python_code (py "please print hello")
     <> nl_to_python.generate_python_code (py "please print hello").
Proof.
  split; [vm_compute; reflexivity|].
  split; [vm_compute; discriminate|].
  split; [vm_compute; reflexivity|vm_compute; discriminate].
Qed.

(** * Further properties of the two translators *)

(** ** Normalization *)

Section Normalization.

Lemma lower_char_idem (c : ascii) : lower_char (lower_char c) = lower_char c.
Proof. destruct c as [[] [] [] [] [] [] [] []]; reflexivity. Qed.

Lemma lower_idem (s : pystr) : lower (lower s) = lower s.
Proof.
  unfold lower. induction s as [|c s IH]; simpl; [reflexivity|].
  rewrite lower_char_idem, IH. reflexivity.
Qed.

Lemma lstrip_idem (s : pystr) : lstrip (lstrip s) = lstrip s.
Proof.
  induction s as [|c s IH]; simpl; [reflexivity|].
  destruct (is_space c) eqn:E; [exact IH|]. simpl. rewrite E. reflexivity.
Qed.

Lemma lstrip_head (s : pystr) c t : lstrip s = c :: t -> is_space c = false.
Proof.
  induction s as [|d s IH]; simpl; [discriminate|].
  destruct (is_space d) eqn:E; [exact IH|]. intros [= <- <-]. exact E.
Qed.

Lemma lstrip_nil_blank (s : pystr) :
  lstrip s = [] -> Forall (fun c => is_space c = true) s.
Proof.
  induction s as [|d s IH]; simpl; [constructor|].
  destruct (is_space d) eqn:E; [|discriminate]. intros H. constructor; auto.
Qed.

Lemma lstrip_blank_app (pre s : pystr) :
  Forall (fun c => is_space c = true) pre -> lstrip (pre ++ s) = lstrip s.
Proof.
  induction 1 as [|c pre Hc _ IH]; simpl; [reflexivity|]. rewrite Hc. exact IH.
Qed.

(** [lstrip] leaves a text alone once it has found its first character. *)
Lemma lstrip_app (s post : pystr) c t :
  lstrip s = c :: t -> lstrip (s ++ post) = lstrip s ++ post.
Proof.
  induction s as [|d s IH]; simpl; [discriminate|].
  destruct (is_space d) eqn:E; [exact IH|reflexivity].
Qed.

Lemma rstrip_blank_app (s post : pystr) :
  Forall (fun c => is_space c = true) post -> rstrip (s ++ post) = rstrip s.
Proof.
  intros H. unfold rstrip. rewrite rev_app_distr, lstrip_blank_app; [reflexivity|].
  apply Forall_rev, H.
Qed.

Lemma rstrip_idem (s : pystr) : rstrip (rstrip s) = rstrip s.
Proof. unfold rstrip. rewrite rev_involutive, lstrip_idem. reflexivity. Qed.

(** [rstrip] only cuts blanks off the end. *)
Lemma rstrip_prefix (s : pystr) :
  exists post, s = rstrip s ++ post /\ Forall (fun c => is_space c = true) post.
Proof.
  unfold rstrip.
  assert (H : forall u : pystr, exists pre,
             u = pre ++ lstrip u /\ Forall (fun c => is_space c = true) pre).
  { induction u as [|d u IH]; simpl; [exists []; auto|].
    destruct (is_space d) eqn:E.
    - destruct IH as (pre & Hu & Hpre). exists (d :: pre). split.
      + simpl. congruence.
      + constructor; assumption.
    - exists []. auto. }
  destruct (H (rev s)) as (pre & Hs & Hpre). exists (rev pre). split.
  - rewrite <- rev_app_distr, <- Hs, rev_involutive. reflexivity.
  - apply Forall_rev, Hpre.
Qed.

Lemma rstrip_last (s t : pystr) c : rstrip s = t ++ [c] -> is_space c = false.
Proof.
  unfold rstrip. intros H.
  apply (f_equal (@rev ascii)) in H. rewrite rev_involutive, rev_unit in H.
  apply lstrip_head in H. exact H.
Qed.

Lemma lstrip_strip (s : pystr) : lstrip (strip s) = strip s.
Proof.
  unfold strip. destruct (rstrip_prefix (lstrip s)) as (post & Hs & _).
  destruct (rstrip (lstrip s)) as [|c v] eqn:E; [reflexivity|].
  simpl in Hs. apply lstrip_head in Hs. simpl. rewrite Hs. reflexivity.
Qed.

Lemma strip_idem (s : pystr) : strip (strip s) = strip s.
Proof.
  unfold strip at 1. rewrite lstrip_strip. unfold strip. apply rstrip_idem.
Qed.

Lemma lower_lstrip (s : pystr) : lower (lstrip s) = lstrip (lower s).
Proof.
  unfold lower. induction s as [|c s IH]; simpl; [reflexivity|].
  rewrite is_space_lower_char. destruct (is_space c); [exact IH|reflexivity].
Qed.

Lemma lower_strip (s : pystr) : lower (strip s) = strip (lower s).
Proof.
  unfold strip, rstrip. unfold lower at 1. rewrite map_rev.
  fold (lower (lstrip (rev (lstrip s)))).
  rewrite lower_lstrip. unfold lower at 1. rewrite map_rev.
  fold (lower (lstrip s)). rewrite lower_lstrip. reflexivity.
Qed.

Lemma normalize_idem (s : pystr) : normalize (normalize s) = normalize s.
Proof.
  unfold normalize. rewrite lower_strip, lower_idem. apply strip_idem.
Qed.

(** Blanks around a text do not change what [strip] returns. *)
Lemma strip_blank_around (pre s post : pystr) :
  Forall (fun c => is_space c = true) pre ->
  Forall (fun c => is_space c = true) post ->
  strip (pre ++ s ++ post) = strip s.
Proof.
  intros Hpre Hpost. unfold strip. rewrite lstrip_blank_app by exact Hpre.
  destruct (lstrip s) as [|c t] eqn:E.
  - rewrite lstrip_blank; [reflexivity|].
    apply Forall_app. split; [apply lstrip_nil_blank, E|exact Hpost].
  - rewrite (lstrip_app s post c t E), E. apply rstrip_blank_app, Hpost.
Qed.

(** A text that begins and ends with a character that is no blank is left
    alone by [strip]. *)
Lemma strip_fixed (c d : ascii) (t : pystr) :
  is_space c = false -> is_space d = false ->
  strip (c :: t ++ [d]) = c :: t ++ [d].
Proof.
  intros Hc Hd. unfold strip.
  assert (H : lstrip (c :: t ++ [d]) = c :: t ++ [d])
    by (simpl; rewrite Hc; reflexivity).
  rewrite H. unfold rstrip.
  change (c :: t ++ [d]) with ((c :: t) ++ [d]).
  rewrite rev_unit. remember (rev (c :: t)) as r eqn:Hr.
  simpl. rewrite Hd. simpl. rewrite Hr, rev_involutive. reflexivity.
Qed.

End Normalization.

(** X1.  Normalization is idempotent, and what it returns has no blank at
    either end and no capital letter A-Z. *)
Theorem X1_normalize_idempotent_trimmed_lower (s : pystr) :
  normalize (normalize s) = normalize s
  /\ (forall c t, normalize s = c :: t -> is_space c = false)
  /\ (forall t c, normalize s = t ++ [c] -> is_space c = false)
  /\ Forall (fun c => lower_char c = c) (normalize s)
  /\ lower (normalize s) = normalize s.
Proof.
  split; [apply normalize_idem|].
  split; [intros c t H; unfold normalize, strip in H|].
  { destruct (rstrip_prefix (lstrip (lower s))) as (post & Hs & _).
    rewrite H in Hs. simpl in Hs. apply lstrip_head in Hs. exact Hs. }
  split; [intros t c H; unfold normalize, strip in H; eapply rstrip_last, H|].
  assert (Hl : lower (normalize s) = normalize s).
  { unfold normalize. rewrite lower_strip, lower_idem. reflexivity. }
  split; [|exact Hl].
  revert Hl. unfold lower. generalize (normalize s).
  induction l as [|c l IH]; simpl; intros H; [constructor|].
  injection H as Hc Hl. constructor; auto.
Qed.

(** X2.  The translator ignores the case of the letters and the blanks
    around the instruction, whatever the rule list. *)
Theorem X2_generate_ignores_case_and_margins (rs : list rule) (pre s post : pystr) :
  Forall (fun c => is_space c = true) pre ->
  Forall (fun c => is_space c = true) post ->
  generate_with rs (pre ++ s ++ post) = generate_with rs s
  /\ generate_with rs (lower s) = generate_with rs s
  /\ generate_with rs (normalize s) = generate_with rs s.
Proof.
  intros Hpre Hpost.
  assert (H1 : normalize (pre ++ s ++ post) = normalize s).
  { unfold normalize, lower. rewrite !map_app.
    apply strip_blank_around; apply lower_blank; assumption. }
  assert (H2 : normalize (lower s) = normalize s).
  { unfold normalize. rewrite lower_idem. reflexivity. }
  unfold generate_with. rewrite H1, H2, normalize_idem. auto.
Qed.

Lemma X2_generate_ignores_case_and_margins_witness :
  generate_with rules (py "  " ++ py "SQUARE 12" ++ [newline])
    = generate_with rules (py "SQUARE 12")
  /\ generate_with rules (lower (py "SQUARE 12"))
     = generate_with rules (py "SQUARE 12")
  /\ generate_with rules (normalize (py "SQUARE 12"))
     = generate_with rules (py "SQUARE 12").
Proof.
  apply (X2_generate_ignores_case_and_margins rules (py "  ") (py "SQUARE 12")
           [newline]); repeat constructor.
Defined.

(** ** Decimal texts and numbers *)

Section Decimal.

Local Open Scope Z_scope.

Lemma digit_code (c : ascii) :
  is_digit c = true ->
  digit_val c = Z.of_nat (nat_of_ascii c) - 48
  /\ 0 <= Z.of_nat (nat_of_ascii c) - 48 <= 9.
Proof.
  unfold is_digit, digit_val. cbv zeta.
  intros H. apply andb_true_iff in H as [H1 H2].
  apply Nat.leb_le in H1, H2. lia.
Qed.

Lemma decimal_value_bounds (s : pystr) :
  all_in CDigit s -> 0 <= decimal_value s < 10 ^ Z.of_nat (length s).
Proof.
  induction 1 as [|c s Hc _ IH]; simpl decimal_value; [simpl; lia|].
  apply digit_code in Hc as [_ Hc].
  change (length (c :: s)) with (S (length s)).
  rewrite Nat2Z.inj_succ, Z.pow_succ_r by lia.
  assert (0 < 10 ^ Z.of_nat (length s)) by (apply Z.pow_pos_nonneg; lia).
  nia.
Qed.

Lemma decimal_value_lower (c : ascii) (s : pystr) :
  all_in CDigit (c :: s) -> c <> "0"%char ->
  10 ^ Z.of_nat (length s) <= decimal_value (c :: s).
Proof.
  intros Hall Hc. inversion Hall as [|? ? Hd Hs]; subst.
  pose proof (decimal_value_bounds s Hs) as Hb.
  apply digit_code in Hd as [_ Hd]. simpl decimal_value.
  assert (Z.of_nat (nat_of_ascii c) - 48 <> 0).
  { intros E. apply Hc. rewrite <- (ascii_nat_embedding c).
    replace (nat_of_ascii c) with 48%nat by lia. reflexivity. }
  assert (0 < 10 ^ Z.of_nat (length s)) by (apply Z.pow_pos_nonneg; lia).
  nia.
Qed.

Lemma decimal_value_snoc (s : pystr) (c : ascii) :
  decimal_value (s ++ [c])
  = 10 * decimal_value s + (Z.of_nat (nat_of_ascii c) - 48).
Proof.
  induction s as [|d s IH]; simpl decimal_value; [simpl; lia|].
  rewrite IH, length_app. simpl length.
  replace (Z.of_nat (length s + 1)) with (Z.succ (Z.of_nat (length s))) by lia.
  rewrite Z.pow_succ_r by lia. ring.
Qed.

(** The left-to-right evaluation of [int] computes the positional value. *)
Lemma fold_decimal_value (s : pystr) :
  all_in CDigit s ->
  forall acc,
    fold_left (fun acc c => 10 * acc + digit_val c) s acc
    = acc * 10 ^ Z.of_nat (length s) + decimal_value s.
Proof.
  induction 1 as [|c s Hc _ IH]; intros acc; simpl fold_left.
  - simpl. lia.
  - rewrite IH. apply digit_code in Hc as [-> _]. simpl decimal_value.
    change (length (c :: s)) with (S (length s)).
    rewrite Nat2Z.inj_succ, Z.pow_succ_r by lia. ring.
Qed.

Lemma py_int_value (d : pystr) :
  d <> [] -> all_in CDigit d -> (length d <= max_str_digits)%nat ->
  py_int d = Ok (decimal_value d).
Proof.
  intros Hne Hall Hlen. unfold py_int.
  destruct d as [|c d]; [congruence|].
  assert (E : isdigit (c :: d) = true).
  { unfold isdigit. apply forallb_forall. intros x Hx.
    unfold all_in in Hall. rewrite Forall_forall in Hall.
    apply Hall, list_elem_of_In, Hx. }
  rewrite E. apply Nat.leb_le in Hlen. rewrite Hlen.
  rewrite (fold_decimal_value _ Hall). f_equal; lia.
Qed.

Lemma py_int_long (d : pystr) :
  (max_str_digits < length d)%nat -> py_int d = Raise ValueError.
Proof.
  intros Hlen. unfold py_int. destruct (isdigit d); [|reflexivity].
  apply Nat.leb_gt in Hlen. rewrite Hlen. reflexivity.
Qed.

Lemma py_int_raises (d : pystr) e : py_int d = Raise e -> e = ValueError.
Proof.
  unfold py_int. destruct (isdigit d); [|congruence].
  destruct (length d <=? max_str_digits)%nat; congruence.
Qed.

Lemma pretty_N_char_code (k : N) :
  (k < 10)%N ->
  nat_of_ascii (pretty_N_char k) = (48 + N.to_nat k)%nat.
Proof.
  intros Hk.
  assert (k = 0 \/ k = 1 \/ k = 2 \/ k = 3 \/ k = 4 \/ k = 5 \/ k = 6
          \/ k = 7 \/ k = 8 \/ k = 9)%N as H by lia.
  repeat (destruct H as [->|H]; [reflexivity|]). subst. reflexivity.
Qed.

(** What stdpp's printer puts in front of the text it is given: the
    numeral of [x], or nothing for 0. *)
Lemma pretty_N_go_digits (x : N) :
  forall s, exists d,
    py (pretty_N_go x s) = d ++ py s
    /\ all_in CDigit d
    /\ decimal_value d = Z.of_N x
    /\ ((0 < x)%N -> exists c rest, d = c :: rest /\ c <> "0"%char).
Proof.
  induction (N.lt_wf_0 x) as [x _ IH]. intros s.
  assert (x = 0 \/ 0 < x)%N as [->|Hpos] by lia.
  - exists []. rewrite pretty_N_go_0. repeat split; [constructor|lia].
  - rewrite pretty_N_go_step by exact Hpos.
    assert (Hdm : (x = 10 * (x `div` 10) + x `mod` 10)%N)
      by (apply N.div_mod; discriminate).
    assert (Hmod : (x `mod` 10 < 10)%N) by (apply N.mod_lt; discriminate).
    pose proof (N.div_lt x 10 Hpos eq_refl) as Hlt.
    revert Hdm Hmod Hlt.
    generalize (x `div` 10)%N (x `mod` 10)%N. intros q k Hdm Hmod Hlt.
    set (c := pretty_N_char k).
    assert (Hcode : nat_of_ascii c = (48 + N.to_nat k)%nat)
      by (apply pretty_N_char_code, Hmod).
    assert (Hc : in_class CDigit c = true).
    { simpl. unfold is_digit. cbv zeta. rewrite Hcode.
      apply andb_true_iff. split; apply Nat.leb_le; lia. }
    destruct (IH q Hlt (String c s)) as (d & Hd & Hall & Hval & Hhead).
    exists (d ++ [c]). split; [|split; [|split]].
    + rewrite Hd. simpl. rewrite <- app_assoc. reflexivity.
    + apply Forall_app. split; [exact Hall|]. constructor; [exact Hc|constructor].
    + rewrite decimal_value_snoc, Hval, Hcode. lia.
    + intros _. assert (q = 0 \/ 0 < q)%N as [Hz|Hq] by lia.
      * assert (d = []) as ->.
        { rewrite Hz, pretty_N_go_0 in Hd. simpl in Hd.
          apply (app_inv_tail (c :: py s) d []). symmetry. exact Hd. }
        exists c, []. split; [reflexivity|]. intros E.
        rewrite E in Hcode.
        change (nat_of_ascii "0"%char) with 48%nat in Hcode. lia.
      * destruct (Hhead Hq) as (c0 & rest & -> & Hc0).
        exists c0, (rest ++ [c]). auto.
Qed.

Lemma digit_codes (s : pystr) :
  all_in CDigit s <-> Forall (fun c => 48 <= nat_of_ascii c <= 57)%nat s.
Proof.
  unfold all_in. apply Forall_iff. intros c. simpl. unfold is_digit. cbv zeta.
  rewrite andb_true_iff, !Nat.leb_le. reflexivity.
Qed.

Lemma pretty_numeral (n : Z) :
  0 < n -> numeral_of n (py (pretty n)).
Proof.
  intros Hn. destruct n as [|p|p]; try lia.
  change (pretty (Z.pos p)) with (pretty (N.pos p)).
  unfold pretty, pretty_N.
  destruct (decide (N.pos p = 0)%N) as [E|_]; [discriminate|].
  destruct (pretty_N_go_digits (N.pos p) "") as (d & Hd & Hall & Hval & Hhead).
  simpl in Hd. rewrite app_nil_r in Hd. rewrite Hd.
  split; [apply digit_codes, Hall|]. split; [apply Hhead; lia|].
  rewrite Hval. reflexivity.
Qed.

(** Whenever [str(n)] succeeds for a positive number it gives the numeral
    of the number. *)
Lemma str_of_int_numeral (n : Z) text :
  0 < n -> str_of_int n = Ok text -> numeral_of n text.
Proof.
  intros Hn. unfold str_of_int. cbv zeta.
  destruct (_ <=? max_str_digits)%nat; [|discriminate].
  intros [= <-]. apply pretty_numeral, Hn.
Qed.

Lemma numeral_length (n : Z) text k :
  numeral_of n text -> n < 10 ^ Z.of_nat k -> (length text <= k)%nat.
Proof.
  intros (Hall & (c & rest & -> & Hc) & Hval) Hn.
  apply digit_codes in Hall.
  pose proof (decimal_value_lower c rest Hall Hc) as Hlow.
  rewrite Hval in Hlow.
  assert (Z.of_nat (length rest) < Z.of_nat k).
  { apply (Z.pow_lt_mono_r_iff 10); lia. }
  simpl. lia.
Qed.

(** [str(n)] succeeds for a positive number below [10 ^ 4300]. *)
Lemma str_of_int_small (n : Z) :
  0 < n -> n < 10 ^ Z.of_nat max_str_digits ->
  exists text, str_of_int n = Ok text /\ numeral_of n text.
Proof.
  intros Hn Hsmall. pose proof (pretty_numeral n Hn) as Hnum.
  pose proof (numeral_length _ _ _ Hnum Hsmall) as Hlen.
  exists (py (pretty n)). split; [|exact Hnum].
  unfold str_of_int. cbv zeta.
  destruct (Z.ltb_spec n 0); [lia|].
  apply Nat.leb_le in Hlen. rewrite Hlen. reflexivity.
Qed.

Lemma str_of_int_raises (n : Z) e : str_of_int n = Raise e -> e = ValueError.
Proof.
  unfold str_of_int. cbv zeta.
  destruct (_ <=? max_str_digits)%nat; congruence.
Qed.

End Decimal.

(** ** What the actions return on the matches of their own patterns *)

Section Outcomes.

Lemma group_insert_eq (g : captures) i x : group (<[i := x]> g) i = Ok x.
Proof. unfold group. rewrite lookup_insert_eq. reflexivity. Qed.

Lemma group_insert_ne (g : captures) i j x :
  i <> j -> group (<[i := x]> g) j = group g j.
Proof. intros H. unfold group. rewrite lookup_insert_ne by exact H. reflexivity. Qed.

Lemma isdigit_all (d : pystr) : d <> [] -> all_in CDigit d -> isdigit d = true.
Proof.
  intros Hne Hall. destruct d as [|c d]; [congruence|].
  unfold isdigit. apply forallb_forall. intros x Hx.
  unfold all_in in Hall. rewrite Forall_forall in Hall.
  apply Hall, list_elem_of_In, Hx.
Qed.

Lemma isdigit_inv (d : pystr) : isdigit d = true -> d <> [] /\ all_in CDigit d.
Proof.
  destruct d as [|c d]; [discriminate|]. unfold isdigit. intros H.
  split; [discriminate|]. unfold all_in. apply Forall_forall. intros x Hx.
  rewrite forallb_forall in H. apply H, list_elem_of_In, Hx.
Qed.

Lemma render_entry_raise_inv pair e :
  render_entry pair = Raise e -> count_occ ascii_dec pair ":"%char <> 1.
Proof.
  unfold render_entry. pose proof (split_length ":" pair) as Hl.
  destruct (split ":" pair) as [|k [|v [|x l]]]; simpl in *;
    try discriminate; intros _; lia.
Qed.

Lemma mapM_render_entry_raise_inv pairs e :
  mapM render_entry pairs = Raise e ->
  e = ValueError
  /\ Exists (fun pair => count_occ ascii_dec pair ":"%char <> 1) pairs.
Proof.
  induction pairs as [|pair pairs IH]; simpl; [discriminate|].
  destruct (render_entry pair) as [entry|e1] eqn:E; simpl.
  - destruct (mapM render_entry pairs) as [entries|e2]; simpl; [discriminate|].
    intros [= <-]. destruct (IH eq_refl) as [-> Hex]. auto.
  - intros [= <-]. split; [eapply render_entry_raises, E|].
    apply Exists_cons_hd. eapply render_entry_raise_inv, E.
Qed.

Lemma getitem_operator word symbol :
  In (word, symbol)
     [(py "add", py "+"); (py "subtract", py "-");
      (py "multiply", py "*"); (py "divide", py "/")] ->
  getitem operator_table word = Ok symbol.
Proof.
  simpl. intros [E|[E|[E|[E|[]]]]]; injection E as <- <-;
    vm_compute; reflexivity.
Qed.

Ltac step_groups :=
  repeat (first [ rewrite group_insert_eq
                | rewrite group_insert_ne by lia ]; simpl).

Ltac plain := eexists; split; [reflexivity|eexists _, _; split; [reflexivity|discriminate]].

(** Rule by rule: on a match of its own pattern an action returns code,
    or the help text (rule 17), or raises [ValueError] (rule 12, and rule 2
    on numbers too long to convert). *)
Lemma action_outcome n i p a m :
  rules !! i = Some (p, a) -> fullmatch p n = Some m ->
  (exists out, a m = Ok out /\ plain_code out)
  \/ (i = 16 /\ a m = Ok help_text)
  \/ (i = 11 /\ a m = Raise ValueError
      /\ exists pairs,
           n = py "create dictionary " ++ pairs
           /\ Exists (fun pair => count_occ ascii_dec pair ":"%char <> 1)
                (split "," pairs))
  \/ (i = 1 /\ a m = Raise ValueError).
Proof.
  intros Hl Hf. pose proof (fullmatch_sound _ _ _ Hf) as Hm.
  destruct i as [|[|[|[|[|[|[|[|[|[|[|[|[|[|[|[|[|i]]]]]]]]]]]]]]]]];
    simpl in Hl; [injection Hl as <- <- ..|discriminate].
  - unfold pattern_1 in Hm. take_apart. left. unfold action_1. step_groups. plain.
  - unfold pattern_2 in Hm. take_apart. unfold action_2.
    match goal with
    | |- context [<[2 := ?b]> (<[1 := ?a]> ∅)] =>
        rewrite (group_insert_ne _ 2 1) by lia;
        rewrite (group_insert_eq _ 1); simpl;
        destruct (py_int a) as [z1|e1] eqn:E1; simpl;
          [|apply py_int_raises in E1 as ->; do 3 right; auto];
        rewrite (group_insert_eq _ 2); simpl;
        destruct (py_int b) as [z2|e2] eqn:E2; simpl;
          [|apply py_int_raises in E2 as ->; do 3 right; auto];
        destruct (str_of_int z1) as [t1|e3] eqn:E3; simpl;
          [|apply str_of_int_raises in E3 as ->; do 3 right; auto];
        destruct (str_of_int (z2 + 1)) as [t2|e4] eqn:E4; simpl;
          [|apply str_of_int_raises in E4 as ->; do 3 right; auto]
    end.
    left. plain.
  - destruct (pattern_3_inv n m Hf)
      as (w & sy & f & sd & Hin & _ & _ & _ & _ & _ & ->).
    left. unfold action_3. step_groups. rewrite (getitem_operator _ _ Hin).
    simpl. step_groups. plain.
  - unfold pattern_4 in Hm. take_apart. left. unfold action_4. step_groups. plain.
  - unfold pattern_5 in Hm. take_apart. left. unfold action_5. step_groups.
    match goal with |- context [isdigit ?x] => destruct (isdigit x) end;
      simpl; plain.
  - left. unfold action_6. plain.
  - left. unfold action_7. plain.
  - unfold pattern_8 in Hm. take_apart. left. unfold action_8. step_groups. plain.
  - unfold pattern_9 in Hm. take_apart. left. unfold action_9. step_groups. plain.
  - left. unfold action_10. plain.
  - left. unfold action_11. plain.
  - unfold pattern_12 in Hm. take_apart. unfold action_12. step_groups.
    match goal with
    | |- context [mapM render_entry ?l] =>
        destruct (mapM render_entry l) as [entries|e] eqn:E
    end; simpl.
    + left. plain.
    + right. right. left. apply mapM_render_entry_raise_inv in E as [-> Hex].
      split; [reflexivity|]. split; [reflexivity|]. eauto.
  - left. unfold action_13. plain.
  - unfold pattern_14 in Hm. take_apart. left. unfold action_14. step_groups. plain.
  - left. unfold action_15. plain.
  - unfold pattern_16 in Hm. take_apart. left. unfold action_16. step_groups. plain.
  - right. left. auto.
Qed.

End Outcomes.

Section Selection.

(** Rules 2, 7, 11 and 13 stand behind rule 1, which takes every text they
    accept. *)
Lemma shadowed_rules n j m :
  first_match_from 1 rules n = Some (j, m) ->
  j <> 2 /\ j <> 7 /\ j <> 11 /\ j <> 13.
Proof.
  intros H. apply first_match_from_inv in H as (Hle & p & a & Hl & Hm & Hbefore).
  assert (Hno : 1 < j -> ~ is_Some (fullmatch pattern_1 n)).
  { intros Hj [x Hx].
    rewrite (Hbefore 0 pattern_1 action_1) in Hx; [discriminate|lia|reflexivity]. }
  repeat split; intros ->; simpl in Hl; injection Hl as <- <-;
    apply Hno; try lia.
  - eapply pattern_2_shadowed, Hm.
  - eapply literal_shadowed; [exact Hm|vm_compute; eauto].
  - eapply literal_shadowed; [exact Hm|vm_compute; eauto].
  - eapply literal_shadowed; [exact Hm|vm_compute; eauto].
Qed.

(** The translator's result, read off the rule the loop stops at. *)
Lemma generate_by_selection (s : pystr) :
  match normalize s with
  | [] => generate_python_code s = Ok please_enter
  | _ :: _ =>
      match selected_rule s with
      | None => generate_python_code s = Ok not_understood
      | Some (j, m) =>
          1 <= j /\ j <> 2
          /\ exists p a,
               rules !! (j - 1) = Some (p, a)
               /\ fullmatch p (normalize s) = Some m
               /\ generate_python_code s = a m
      end
  end.
Proof.
  unfold generate_python_code, generate_with, selected_rule.
  destruct (normalize s) as [|c n] eqn:En; [reflexivity|].
  rewrite (apply_rules_first_match rules (c :: n) 1).
  destruct (first_match_from 1 rules (c :: n)) as [[j m]|] eqn:F; [|reflexivity].
  pose proof (shadowed_rules _ _ _ F) as (Hdead & _).
  apply first_match_from_inv in F as (Hle & p & a & Hl & Hm & _).
  split; [exact Hle|]. split; [exact Hdead|]. exists p, a. rewrite Hl. auto.
Qed.

Lemma plain_code_not_marker out :
  plain_code out -> out <> not_understood /\ out <> please_enter.
Proof.
  intros (c & rest & -> & Hc). split; intros [= E _]; congruence.
Qed.

End Selection.

(** X3.  The full translator raises nothing but [ValueError], and only for
    a "create dictionary ..." instruction one of whose comma-separated
    pairs does not hold exactly one ':'. *)
Theorem X3_only_malformed_dictionary_raises (s : pystr) (e : exn) :
  generate_python_code s = Raise e ->
  e = ValueError
  /\ exists pairs,
       normalize s = py "create dictionary " ++ pairs
       /\ Exists (fun pair => count_occ ascii_dec pair ":"%char <> 1)
            (split "," pairs).
Proof.
  intros H. pose proof (generate_by_selection s) as G.
  destruct (normalize s) as [|c n] eqn:En; [congruence|].
  destruct (selected_rule s) as [[j m]|]; [|congruence].
  destruct G as (Hle & Hj & p & a & Hl & Hm & Hg). rewrite Hg in H.
  destruct (action_outcome _ _ _ _ _ Hl Hm)
    as [(out & Ho & _)|[(_ & Ho)|[(_ & Ho & pairs & Hn & Hex)|(Hi & _)]]];
    try congruence; [|lia].
  split; [congruence|]. exists pairs. auto.
Qed.

Lemma X3_only_malformed_dictionary_raises_witness :
  ValueError = ValueError
  /\ exists pairs,
       normalize (py "Create Dictionary a:1,b") = py "create dictionary " ++ pairs
       /\ Exists (fun pair => count_occ ascii_dec pair ":"%char <> 1)
            (split "," pairs).
Proof.
  apply (X3_only_malformed_dictionary_raises (py "Create Dictionary a:1,b")).
  vm_compute; reflexivity.
Defined.

(** X4.  The two fixed answers are exact signals: "# I don't understand..."
    is returned exactly when the normalized instruction is not empty and no
    pattern matches it, and "# Please enter an instruction" exactly when
    the normalized instruction is empty.  No action returns either text. *)
Theorem X4_fixed_answers_are_exact (s : pystr) :
  (generate_python_code s = Ok not_understood
   <-> normalize s <> [] /\ selected_rule s = None)
  /\ (generate_python_code s = Ok please_enter <-> normalize s = []).
Proof.
  pose proof (generate_by_selection s) as G.
  assert (Hhelp : help_text <> not_understood /\ help_text <> please_enter).
  { split; vm_compute; discriminate. }
  assert (Hdiff : not_understood <> please_enter) by (vm_compute; discriminate).
  destruct (normalize s) as [|c n] eqn:En.
  - rewrite G. split; split; try congruence.
    intros [Hne _]. congruence.
  - destruct (selected_rule s) as [[j m]|].
    + destruct G as (Hle & Hj & p & a & Hl & Hm & Hg). rewrite Hg.
      destruct (action_outcome _ _ _ _ _ Hl Hm)
        as [(out & -> & Hp)|[(_ & ->)|[(_ & -> & _)|(Hi & _)]]]; [| | |lia].
      * apply plain_code_not_marker in Hp as [H1 H2].
        split; split; try congruence; intros [_ H]; congruence.
      * destruct Hhelp as [H1 H2].
        split; split; try congruence; intros [_ H]; congruence.
      * split; split; try congruence; intros [_ H]; congruence.
    + rewrite G. split; split; try congruence; auto.
Qed.

(** X5.  Of the seventeen rules exactly thirteen can be selected: every
    rule but 2, 7, 11 and 13 is selected for some instruction, and these
    four for none. *)
Theorem X5_reachable_rules (j : nat) :
  (exists s m, selected_rule s = Some (j, m))
  <-> In j [1; 3; 4; 5; 6; 8; 9; 10; 12; 14; 15; 16; 17].
Proof.
  split.
  - intros (s & m & H). unfold selected_rule in H.
    pose proof (shadowed_rules _ _ _ H) as Hdead.
    apply first_match_from_inv in H as (Hle & p & a & Hl & _).
    apply lookup_lt_Some in Hl. simpl in Hl. simpl. lia.
  - simpl. intros [<-|[<-|[<-|[<-|[<-|[<-|[<-|[<-|[<-|[<-|[<-|[<-|[<-|[]]]]]]]]]]]]]].
    + exists (py "print hello"). eexists. vm_compute. reflexivity.
    + exists (py "add 5 and 3"). eexists. vm_compute. reflexivity.
    + exists (py "create list 1,2,3"). eexists. vm_compute. reflexivity.
    + exists (py "append 5 to list"). eexists. vm_compute. reflexivity.
    + exists (py "sort list"). eexists. vm_compute. reflexivity.
    + exists (py "square 5"). eexists. vm_compute. reflexivity.
    + exists (py "create string hello"). eexists. vm_compute. reflexivity.
    + exists (py "uppercase string"). eexists. vm_compute. reflexivity.
    + exists (py "create dictionary name:john, age:25"). eexists.
      vm_compute. reflexivity.
    + exists (py "if x equals 10 then print correct"). eexists.
      vm_compute. reflexivity.
    + exists (py "loop list"). eexists. vm_compute. reflexivity.
    + exists (py "ask input Enter your name:"). eexists. vm_compute. reflexivity.
    + exists (py "show commands"). eexists. vm_compute. reflexivity.
Qed.

(** ** The rules one by one *)

Section Rules.

Lemma matches_lit_intro w g : matches (lit w) (py w) g g.
Proof.
  unfold lit. generalize (py w). intros l.
  induction l as [|c l IH]; simpl; [constructor|].
  change (c :: l) with ([c] ++ l). econstructor; [constructor|exact IH].
Qed.

(** A run of characters of a class ends where the first character outside
    the class stands: the text can be cut there in one way only. *)
Lemma class_run_unique cl sep (a a' x x' : pystr) :
  all_in cl a -> all_in cl a' -> in_class cl sep = false ->
  a ++ sep :: x = a' ++ sep :: x' -> a = a' /\ x = x'.
Proof.
  intros Ha. revert a'.
  induction Ha as [|c a Hc _ IH]; intros a' Ha' Hsep E.
  - destruct Ha' as [|c' a' Hc' _]; simpl in E.
    + injection E as ->. auto.
    + injection E as <- _. congruence.
  - destruct Ha' as [|c' a' Hc' Ha']; simpl in E.
    + injection E as -> _. congruence.
    + injection E as <- E. destruct (IH a' Ha' Hsep E) as [-> ->]. auto.
Qed.

Lemma pattern_5_accepts n item :
  n = py "append " ++ item ++ py " to list" ->
  item <> [] -> all_in CDot item ->
  fullmatch pattern_5 n = Some (<[1 := item]> ∅).
Proof.
  intros Hn Hne Hall.
  assert (M : matches pattern_5 n ∅ (<[1 := item]> ∅)).
  { rewrite Hn. unfold pattern_5.
    eapply M_Seq; [apply matches_lit_intro|].
    eapply M_Seq; [|apply matches_lit_intro].
    apply M_Group, M_Plus; assumption. }
  destruct (fullmatch_complete _ _ _ _ M) as [m Hm]. rewrite Hm. f_equal.
  apply fullmatch_sound in Hm. unfold pattern_5 in Hm. take_apart.
  apply app_inv_head, app_inv_tail in Hn as ->. reflexivity.
Qed.

Lemma pattern_14_accepts n var value message :
  n = py "if " ++ var ++ py " equals " ++ value ++ py " then print " ++ message ->
  var <> [] -> all_in CWord var -> value <> [] -> all_in CDigit value ->
  message <> [] -> all_in CDot message ->
  fullmatch pattern_14 n
  = Some (<[3 := message]> (<[2 := value]> (<[1 := var]> ∅))).
Proof.
  intros Hn Hv1 Hv2 Hd1 Hd2 Hm1 Hm2.
  assert (M : matches pattern_14 n ∅
                (<[3 := message]> (<[2 := value]> (<[1 := var]> ∅)))).
  { rewrite Hn. unfold pattern_14.
    eapply M_Seq; [apply matches_lit_intro|].
    eapply M_Seq; [apply M_Group, M_Plus; assumption|].
    eapply M_Seq; [apply matches_lit_intro|].
    eapply M_Seq; [apply M_Group, M_Plus; assumption|].
    eapply M_Seq; [apply matches_lit_intro|].
    apply M_Group, M_Plus; assumption. }
  destruct (fullmatch_complete _ _ _ _ M) as [m Hm]. rewrite Hm. f_equal.
  apply fullmatch_sound in Hm. unfold pattern_14 in Hm. take_apart.
  apply app_inv_head in Hn. simpl in Hn.
  match goal with
  | Hx : all_in CWord ?x |- _ =>
      lazymatch x with
      | var => fail
      | _ => apply (class_run_unique CWord " "%char x var) in Hn as [-> Hn];
             [|assumption|assumption|reflexivity]
      end
  end.
  injection Hn as Hn.
  match goal with
  | Hx : all_in CDigit ?x |- _ =>
      lazymatch x with
      | value => fail
      | _ => apply (class_run_unique CDigit " "%char x value) in Hn as [-> Hn];
             [|assumption|assumption|reflexivity]
      end
  end.
  injection Hn as ->. reflexivity.
Qed.

End Rules.

(** X6.  "append ITEM to list": the item, taken as it stands (it is not
    stripped and may itself hold " to list"), is appended bare when
    [str.isdigit] holds for it, and otherwise between two quotation marks
    (character 34). *)
Theorem X6_append_rule (s item : pystr) :
  normalize s = py "append " ++ item ++ py " to list" ->
  item <> [] ->
  Forall (fun c => c <> newline) item ->
  generate_python_code s
  = Ok (if isdigit item
        then py "my_list.append(" ++ item ++ py ")"
        else py "my_list.append(" ++ "034"%char :: item
               ++ "034"%char :: py ")").
Proof.
  intros Hn Hne Hnl. unfold generate_python_code.
  rewrite generate_nonempty by (rewrite Hn; discriminate).
  unfold rules.
  do 4 (rewrite apply_rules_skip by (rewrite Hn; reflexivity)).
  cbn [apply_rules].
  rewrite (pattern_5_accepts _ item Hn Hne) by (apply all_in_dot_iff, Hnl).
  unfold action_5. rewrite group_insert_eq.
  cbv beta iota delta [mbind result_bind].
  destruct (isdigit item); cbn [negb]; [reflexivity|].
  rewrite quoted_app. reflexivity.
Qed.

Lemma X6_append_rule_witness :
  generate_python_code (py "Append 42 to list") = Ok (py "my_list.append(42)")
  /\ generate_python_code (py "append a to list to list")
     = Ok (py "my_list.append(" ++ "034"%char :: py "a to list"
             ++ "034"%char :: py ")").
Proof.
  split.
  - apply (X6_append_rule (py "Append 42 to list") (py "42")).
    + vm_compute; reflexivity.
    + discriminate.
    + repeat constructor; discriminate.
  - apply (X6_append_rule (py "append a to list to list") (py "a to list")).
    + vm_compute; reflexivity.
    + discriminate.
    + repeat constructor; discriminate.
Defined.

Lemma square_by_digits (s d : pystr) :
  normalize s = py "square " ++ d ->
  generate_python_code s
  = if isdigit d then Ok (py "print(" ++ d ++ py " ** 2)")
    else Ok not_understood.
Proof.
  intros Hn. unfold generate_python_code.
  rewrite generate_nonempty by (rewrite Hn; discriminate).
  destruct (isdigit d) eqn:Hd.
  - apply isdigit_inv in Hd as [Hne Hall]. unfold rules.
    do 7 (rewrite apply_rules_skip by (rewrite Hn; reflexivity)).
    cbn [apply_rules]. rewrite Hn. unfold pattern_8, lit.
    rewrite fullmatch_lit_group by assumption.
    unfold action_8. rewrite group_insert_eq. reflexivity.
  - apply apply_rules_none. unfold rules.
    repeat (apply Forall_cons; split;
            [first [ rewrite Hn; reflexivity | idtac ]|]);
      [|apply Forall_nil; exact I].
    simpl. destruct (fullmatch pattern_8 (normalize s)) as [m|] eqn:E;
      [|reflexivity].
    apply fullmatch_lit_group_inv in E as (rest & Hr & Hne & Hall & _).
    rewrite Hn in Hr. apply app_inv_head in Hr as <-.
    rewrite (isdigit_all d Hne Hall) in Hd. discriminate.
Qed.

(** X7.  "square N" for an N of ASCII characters: when N is not empty and
    every character of it is one of the digits 0-9 (character codes 48 to
    57, what [\d] matches among ASCII characters), the result is
    [print(N ** 2)] with N as written; for any other N (a sign, a decimal
    point, a letter) no rule applies and "# I don't understand. Type 'help'
    for available commands." is returned. *)
Theorem X7_square_rule (s d : pystr) :
  normalize s = py "square " ++ d ->
  Forall (fun c => nat_of_ascii c < 128) d ->
  generate_python_code s
  = match d with
    | [] => Ok (py "# I don't understand. Type 'help' for available commands.")
    | _ :: _ =>
        if forallb (fun c => (48 <=? nat_of_ascii c) && (nat_of_ascii c <=? 57)) d
        then Ok (py "print(" ++ d ++ py " ** 2)")
        else Ok (py "# I don't understand. Type 'help' for available commands.")
    end.
Proof.
  intros Hn _. rewrite (square_by_digits s d Hn).
  destruct d as [|c d]; reflexivity.
Qed.

Lemma X7_square_rule_witness :
  generate_python_code (py "Square 007") = Ok (py "print(007 ** 2)")
  /\ generate_python_code (py "square -3")
     = Ok (py "# I don't understand. Type 'help' for available commands.")
  /\ generate_python_code (py "square 1.5")
     = Ok (py "# I don't understand. Type 'help' for available commands.").
Proof.
  split; [|split].
  - apply (X7_square_rule (py "Square 007") (py "007")).
    + vm_compute; reflexivity.
    + repeat constructor.
  - apply (X7_square_rule (py "square -3") (py "-3")).
    + vm_compute; reflexivity.
    + repeat constructor.
  - apply (X7_square_rule (py "square 1.5") (py "1.5")).
    + vm_compute; reflexivity.
    + repeat constructor.
Defined.

(** X8.  "if VAR equals N then print MESSAGE", with VAR made of letters,
    digits and '_' and N of digits: the result is
    [if VAR == N: print("MESSAGE")], the message as it stands between two
    quotation marks (character 34). *)
Theorem X8_if_rule (s var value message : pystr) :
  normalize s
    = py "if " ++ var ++ py " equals " ++ value ++ py " then print " ++ message ->
  var <> [] -> all_in CWord var ->
  value <> [] -> all_in CDigit value ->
  message <> [] -> Forall (fun c => c <> newline) message ->
  generate_python_code s
  = Ok (py "if " ++ var ++ py " == " ++ value ++ py ": print("
          ++ "034"%char :: message ++ "034"%char :: py ")").
Proof.
  rewrite <- quoted_app.
  intros Hn Hv1 Hv2 Hd1 Hd2 Hm1 Hm2. unfold generate_python_code.
  rewrite generate_nonempty by (rewrite Hn; discriminate).
  unfold rules.
  do 13 (rewrite apply_rules_skip by (rewrite Hn; reflexivity)).
  cbn [apply_rules].
  rewrite (pattern_14_accepts _ var value message Hn)
    by (try apply all_in_dot_iff; assumption).
  unfold action_14.
  rewrite (group_insert_ne _ 3 1), (group_insert_ne _ 2 1) by lia.
  rewrite (group_insert_eq _ 1). simpl.
  rewrite (group_insert_ne _ 3 2) by lia.
  rewrite (group_insert_eq _ 2). simpl.
  rewrite (group_insert_eq _ 3). reflexivity.
Qed.

Lemma X8_if_rule_witness :
  generate_python_code (py "If x_1 equals 10 then print Correct")
  = Ok (py "if x_1 == 10: print(" ++ "034"%char :: py "correct"
          ++ "034"%char :: py ")").
Proof.
  apply (X8_if_rule (py "If x_1 equals 10 then print Correct")
           (py "x_1") (py "10") (py "correct")).
  - vm_compute; reflexivity.
  - discriminate.
  - repeat constructor.
  - discriminate.
  - repeat constructor.
  - discriminate.
  - repeat constructor; discriminate.
Defined.

Section TextRules.

Lemma lower_char_newline (c : ascii) : lower_char c = newline -> c = newline.
Proof. destruct c as [[] [] [] [] [] [] [] []]; vm_compute; congruence. Qed.

Lemma lower_no_newline (t : pystr) :
  Forall (fun c => c <> newline) t -> Forall (fun c => c <> newline) (lower t).
Proof.
  unfold lower. induction 1 as [|c t Hc _ IH]; simpl; constructor; [|exact IH].
  intros E. apply Hc, lower_char_newline, E.
Qed.

(** Normalizing a lower-case keyword followed by a text that does not end
    in a blank: only the letters of the text change. *)
Lemma normalize_keyword_text (c0 : ascii) (pre t : pystr) (d : ascii) :
  lower (c0 :: pre) = c0 :: pre -> is_space c0 = false -> is_space d = false ->
  normalize ((c0 :: pre) ++ t ++ [d]) = (c0 :: pre) ++ lower (t ++ [d]).
Proof.
  intros Hlow Hc Hd. unfold normalize.
  assert (E : lower ((c0 :: pre) ++ t ++ [d])
              = c0 :: (pre ++ lower t) ++ [lower_char d]).
  { unfold lower in *. rewrite !map_app, Hlow. simpl.
    rewrite <- app_assoc. reflexivity. }
  rewrite E, strip_fixed; [|exact Hc|rewrite is_space_lower_char; exact Hd].
  unfold lower. rewrite map_app. simpl. rewrite <- app_assoc. reflexivity.
Qed.

Lemma not_blank_not_newline (d : ascii) : is_space d = false -> d <> newline.
Proof. intros H ->. discriminate. Qed.

End TextRules.

(** X9.  The free-text rules emit the text in lower case.  For a text of
    ASCII characters without newline that does not end in a blank,
    "create string TEXT", "ask input TEXT" and "print TEXT" give
    [my_string = "text"], [user_input = input("text")] and [print("text")]
    with a quotation mark (character 34) on either side, where text is
    TEXT with every letter A-Z (codes 65 to 90) replaced by the letter 32
    codes further, a-z, and every other character kept. *)
Theorem X9_text_is_emitted_in_lower_case (t : pystr) (d : ascii) :
  Forall (fun c => nat_of_ascii c < 128) (t ++ [d]) ->
  is_space d = false ->
  Forall (fun c => c <> newline) t ->
  generate_python_code (py "create string " ++ t ++ [d])
    = Ok (py "my_string = "
            ++ "034"%char
            :: map (fun c =>
                      if (65 <=? nat_of_ascii c) && (nat_of_ascii c <=? 90)
                      then ascii_of_nat (nat_of_ascii c + 32) else c)
                   (t ++ [d])
            ++ ["034"%char])
  /\ generate_python_code (py "ask input " ++ t ++ [d])
     = Ok (py "user_input = input("
             ++ "034"%char
             :: map (fun c =>
                       if (65 <=? nat_of_ascii c) && (nat_of_ascii c <=? 90)
                       then ascii_of_nat (nat_of_ascii c + 32) else c)
                    (t ++ [d])
             ++ "034"%char :: py ")")
  /\ generate_python_code (py "print " ++ t ++ [d])
     = Ok (py "print("
             ++ "034"%char
             :: map (fun c =>
                       if (65 <=? nat_of_ascii c) && (nat_of_ascii c <=? 90)
                       then ascii_of_nat (nat_of_ascii c + 32) else c)
                    (t ++ [d])
             ++ "034"%char :: py ")").
Proof.
  intros _ Hd Ht.
  change (map (fun c =>
                 if (65 <=? nat_of_ascii c) && (nat_of_ascii c <=? 90)
                 then ascii_of_nat (nat_of_ascii c + 32) else c) (t ++ [d]))
    with (lower (t ++ [d])).
  change ("034"%char :: lower (t ++ [d]) ++ ["034"%char])
    with (quoted (lower (t ++ [d]))).
  rewrite <- !quoted_app.
  assert (Hne : lower (t ++ [d]) <> []).
  { unfold lower. rewrite map_app. simpl. intros E.
    apply app_eq_nil in E as [_ E]. discriminate. }
  assert (Hnl : Forall (fun c => c <> newline) (lower (t ++ [d]))).
  { apply lower_no_newline, Forall_app. split; [exact Ht|].
    constructor; [apply not_blank_not_newline, Hd|constructor]. }
  assert (Hdot : all_in CDot (lower (t ++ [d]))) by (apply all_in_dot_iff, Hnl).
  split; [|split].
  - assert (Hn : normalize (py "create string " ++ t ++ [d])
                 = py "create string " ++ lower (t ++ [d])).
    { apply (normalize_keyword_text "c" (py "reate string ") t d);
        reflexivity || exact Hd. }
    unfold generate_python_code. rewrite generate_nonempty;
      rewrite Hn; [|discriminate].
    unfold rules.
    do 8 (rewrite apply_rules_skip by reflexivity).
    cbn [apply_rules]. unfold pattern_9, lit.
    rewrite fullmatch_lit_group by assumption.
    unfold action_9. rewrite group_insert_eq. reflexivity.
  - assert (Hn : normalize (py "ask input " ++ t ++ [d])
                 = py "ask input " ++ lower (t ++ [d])).
    { apply (normalize_keyword_text "a" (py "sk input ") t d);
        reflexivity || exact Hd. }
    unfold generate_python_code. rewrite generate_nonempty;
      rewrite Hn; [|discriminate].
    unfold rules.
    do 15 (rewrite apply_rules_skip by reflexivity).
    cbn [apply_rules]. unfold pattern_16, lit.
    rewrite fullmatch_lit_group by assumption.
    unfold action_16. rewrite group_insert_eq. reflexivity.
  - apply generate_free_text; [|exact Hne|exact Hnl].
    apply (normalize_keyword_text "p" (py "rint ") t d);
      reflexivity || exact Hd.
Qed.

Lemma X9_text_is_emitted_in_lower_case_witness :
  generate_python_code (py "create string Hello Python")
    = Ok (py "my_string = " ++ "034"%char :: py "hello python"
            ++ ["034"%char])
  /\ generate_python_code (py "ask input Enter your name:")
     = Ok (py "user_input = input(" ++ "034"%char :: py "enter your name:"
             ++ "034"%char :: py ")").
Proof.
  split.
  - apply (proj1 (X9_text_is_emitted_in_lower_case
                    (py "Hello Pytho") "n"%char
                    ltac:(repeat constructor) eq_refl
                    ltac:(repeat constructor; discriminate))).
  - apply (proj1 (proj2 (X9_text_is_emitted_in_lower_case
                    (py "Enter your name") ":"%char
                    ltac:(repeat constructor) eq_refl
                    ltac:(repeat constructor; discriminate)))).
Defined.

Section Dictionary.

Lemma split_no_sep sep (x : pystr) :
  Forall (fun c => c <> sep) x -> split sep x = [x].
Proof.
  induction 1 as [|c x Hc _ IH]; simpl; [reflexivity|].
  destruct (Ascii.eqb_spec c sep); [contradiction|]. rewrite IH. reflexivity.
Qed.

Lemma split_app_sep sep (x y : pystr) :
  Forall (fun c => c <> sep) x -> split sep (x ++ sep :: y) = x :: split sep y.
Proof.
  induction 1 as [|c x Hc _ IH]; simpl.
  - rewrite Ascii.eqb_refl. reflexivity.
  - destruct (Ascii.eqb_spec c sep); [contradiction|]. rewrite IH. reflexivity.
Qed.

(** Cutting a joined text at the separator gives the pieces back, when no
    piece holds the separator. *)
Lemma split_join sep (pieces : list pystr) :
  pieces <> [] ->
  Forall (Forall (fun c => c <> sep)) pieces ->
  split sep (join [sep] pieces) = pieces.
Proof.
  intros Hne Hall. induction Hall as [|p ps Hp Hps IH]; [congruence|].
  destruct ps as [|q qs]; simpl.
  - apply split_no_sep, Hp.
  - rewrite split_app_sep by exact Hp. f_equal. apply IH. discriminate.
Qed.

Lemma join_forall (P : ascii -> Prop) sep (pieces : list pystr) :
  P sep -> Forall (Forall P) pieces -> Forall P (join [sep] pieces).
Proof.
  intros Hsep. induction 1 as [|p ps Hp Hps IH]; simpl; [constructor|].
  destruct ps as [|q qs]; [exact Hp|].
  apply Forall_app. split; [exact Hp|]. constructor; [exact Hsep|exact IH].
Qed.

Lemma render_entry_ok (k v : pystr) :
  Forall (fun c => c <> ":"%char) k -> Forall (fun c => c <> ":"%char) v ->
  render_entry (k ++ ":"%char :: v)
  = Ok (quoted (strip k) ++ py ": " ++ render_value v).
Proof.
  intros Hk Hv. unfold render_entry.
  rewrite split_app_sep by exact Hk. rewrite split_no_sep by exact Hv.
  reflexivity.
Qed.

End Dictionary.

Lemma dictionary_rule_rendered (s : pystr) (kvs : list (pystr * pystr)) :
  kvs <> [] ->
  Forall (fun kv : pystr * pystr =>
            Forall (fun c => c <> ":"%char /\ c <> ","%char /\ c <> newline)
                   (kv.1 ++ kv.2)) kvs ->
  normalize s
    = py "create dictionary "
        ++ join [","%char] (map (fun kv => kv.1 ++ ":"%char :: kv.2) kvs) ->
  generate_python_code s
  = Ok (py "my_dict = {"
          ++ join (py ", ")
               (map (fun kv => quoted (strip kv.1) ++ py ": "
                                 ++ render_value kv.2) kvs)
          ++ py "}").
Proof.
  intros Hne Hall Hn.
  set (pairs := map (fun kv : pystr * pystr => kv.1 ++ ":"%char :: kv.2) kvs)
    in *.
  assert (Hcomma : Forall (Forall (fun c => c <> ","%char)) pairs).
  { unfold pairs. clear -Hall. induction Hall as [|[k v] kvs H _ IH];
      simpl; constructor; [|exact IH].
    simpl in H. apply Forall_app in H as [Hk Hv]. apply Forall_app. split.
    - eapply Forall_impl; [exact Hk|]. intros c; simpl; tauto.
    - constructor; [discriminate|]. eapply Forall_impl; [exact Hv|]. intros c; simpl; tauto. }
  assert (Hnl : Forall (Forall (fun c => c <> newline)) pairs).
  { unfold pairs. clear -Hall. induction Hall as [|[k v] kvs H _ IH];
      simpl; constructor; [|exact IH].
    simpl in H. apply Forall_app in H as [Hk Hv]. apply Forall_app. split.
    - eapply Forall_impl; [exact Hk|]. intros c; simpl; tauto.
    - constructor; [discriminate|]. eapply Forall_impl; [exact Hv|]. intros c; simpl; tauto. }
  assert (Hpairs : pairs <> []).
  { unfold pairs. destruct kvs; [congruence|discriminate]. }
  assert (Htext : join [","%char] pairs <> []).
  { unfold pairs. destruct kvs as [|[k v] [|kv kvs]]; [congruence|..];
      simpl; destruct k; discriminate. }
  assert (Hentries :
    mapM render_entry pairs
    = Ok (map (fun kv : pystr * pystr =>
                 quoted (strip kv.1) ++ py ": " ++ render_value kv.2) kvs)).
  { unfold pairs. clear -Hall. induction Hall as [|[k v] kvs H _ IH];
      [reflexivity|].
    simpl in H. apply Forall_app in H as [Hk Hv].
    cbn [map mapM]. simpl fst. simpl snd.
    rewrite render_entry_ok.
    - change (mapM render_entry (map _ kvs))
        with (mapM render_entry
                (map (fun kv : pystr * pystr => kv.1 ++ ":"%char :: kv.2) kvs)).
      simpl. rewrite IH. reflexivity.
    - eapply Forall_impl; [exact Hk|]. intros c; simpl; tauto.
    - eapply Forall_impl; [exact Hv|]. intros c; simpl; tauto. }
  unfold generate_python_code.
  rewrite generate_nonempty by (rewrite Hn; discriminate).
  unfold rules.
  do 11 (rewrite apply_rules_skip by (rewrite Hn; reflexivity)).
  cbn [apply_rules]. rewrite Hn. unfold pattern_12, lit.
  rewrite fullmatch_lit_group;
    [|exact Htext|apply all_in_dot_iff, join_forall; [discriminate|exact Hnl]].
  unfold action_12. rewrite group_insert_eq. simpl.
  rewrite split_join by assumption. rewrite Hentries. reflexivity.
Qed.

(** X10.  "create dictionary k1:v1,k2:v2,...", with keys and values free of
    ':', ',' and newline: the result is [my_dict = {...}] with one entry
    [key: value] per pair, in order; the stripped key always stands
    between two quotation marks (character 34), the stripped value stands
    bare when [str.isdigit] holds for it and between quotation marks
    otherwise. *)
Theorem X10_dictionary_rule (s : pystr) (kvs : list (pystr * pystr)) :
  kvs <> [] ->
  Forall (fun kv : pystr * pystr =>
            Forall (fun c => c <> ":"%char /\ c <> ","%char /\ c <> newline)
                   (kv.1 ++ kv.2)) kvs ->
  normalize s
    = py "create dictionary "
        ++ join [","%char] (map (fun kv => kv.1 ++ ":"%char :: kv.2) kvs) ->
  generate_python_code s
  = Ok (py "my_dict = {"
          ++ join (py ", ")
               (map (fun kv : pystr * pystr =>
                       "034"%char :: strip kv.1 ++ "034"%char :: py ": "
                         ++ (if isdigit (strip kv.2) then strip kv.2
                             else "034"%char :: strip kv.2 ++ ["034"%char]))
                    kvs)
          ++ py "}").
Proof.
  intros Hne Hall Hn. rewrite (dictionary_rule_rendered s kvs Hne Hall Hn).
  rewrite (map_ext
             (fun kv : pystr * pystr =>
                quoted (strip kv.1) ++ py ": " ++ render_value kv.2)
             (fun kv : pystr * pystr =>
                "034"%char :: strip kv.1 ++ "034"%char :: py ": "
                  ++ (if isdigit (strip kv.2) then strip kv.2
                      else "034"%char :: strip kv.2 ++ ["034"%char])));
    [reflexivity|].
  intros [k v]. rewrite quoted_app. unfold render_value, quoted, dquote.
  cbn [fst snd]. destruct (isdigit (strip v)); reflexivity.
Qed.

Lemma X10_dictionary_rule_witness :
  generate_python_code (py "Create Dictionary name:John, age:25")
  = Ok (py "my_dict = {" ++ "034"%char :: py "name" ++ "034"%char :: py ": "
          ++ "034"%char :: py "john" ++ "034"%char :: py ", "
          ++ "034"%char :: py "age" ++ "034"%char :: py ": 25}").
Proof.
  rewrite (X10_dictionary_rule (py "Create Dictionary name:John, age:25")
             [(py "name", py "john"); (py " age", py "25")]).
  - vm_compute; reflexivity.
  - discriminate.
  - repeat constructor; discriminate.
  - vm_compute; reflexivity.
Defined.

(** ** The minimal translator *)

Section Minimal.

Lemma search_sound r s g :
  search r s = Some g ->
  exists pre mid post, s = pre ++ mid ++ post /\ matches r mid ∅ g.
Proof.
  induction s as [|c s IH]; simpl.
  - destruct (rmatch r [] ∅ anywhere) as [g0|] eqn:E; [|discriminate].
    intros [= <-]. apply rmatch_sound in E as (s1 & s2 & g' & Hs & M & [= <-]).
    exists [], s1, s2. auto.
  - destruct (rmatch r (c :: s) ∅ anywhere) as [g0|] eqn:E.
    + intros [= <-]. apply rmatch_sound in E as (s1 & s2 & g' & Hs & M & [= <-]).
      exists [], s1, s2. auto.
    + intros H. apply IH in H as (pre & mid & post & -> & M).
      exists (c :: pre), mid, post. auto.
Qed.


(** A greedy run stops at the first character outside its class. *)
Lemma greedy_stops cl a rest g k :
  all_in cl a ->
  (rest = [] \/ exists c t, rest = c :: t /\ in_class cl c = false) ->
  is_Some (k rest g) ->
  greedy cl (a ++ rest) g k = k rest g.
Proof.
  intros Ha Hrest Hk. induction Ha as [|c a Hc _ IH]; simpl.
  - destruct Hrest as [->|(c & t & -> & Hc)]; simpl; [reflexivity|].
    rewrite Hc. reflexivity.
  - rewrite Hc, IH. destruct Hk as [o ->]. reflexivity.
Qed.

Lemma rmatch_group_run i cl a rest g k :
  a <> [] -> all_in cl a ->
  (rest = [] \/ exists c t, rest = c :: t /\ in_class cl c = false) ->
  is_Some (k rest (<[i := a]> g)) ->
  rmatch (Group i (Plus cl)) (a ++ rest) g k = k rest (<[i := a]> g).
Proof.
  intros Hne Ha Hrest Hk. cbn [rmatch].
  destruct a as [|c a]; [congruence|].
  inversion Ha as [|? ? Hc Ha']; subst.
  change ((c :: a) ++ rest) with (c :: (a ++ rest)) at 1.
  cbv beta iota. rewrite Hc.
  rewrite greedy_stops; rewrite ?take_consumed; auto.
Qed.

Lemma rmatch_seq r1 r2 s g k :
  rmatch (Seq r1 r2) s g k = rmatch r1 s g (fun s' g' => rmatch r2 s' g' k).
Proof. reflexivity. Qed.

Lemma range_pattern_here a b :
  a <> [] -> all_in CDigit a -> b <> [] -> all_in CDigit b ->
  rmatch nl_to_python.range_pattern
    (py "print numbers from " ++ a ++ py " to " ++ b) ∅ anywhere
  = Some (<[2 := b]> (<[1 := a]> ∅)).
Proof.
  intros Ha1 Ha2 Hb1 Hb2. unfold nl_to_python.range_pattern.
  rewrite rmatch_seq. unfold lit at 1. rewrite rmatch_lit_chars.
  cbv beta. rewrite rmatch_seq.
  assert (Hk : rmatch (Seq (lit " to ") (Group 2 (Plus CDigit)))
                 (py " to " ++ b) (<[1 := a]> ∅) anywhere
               = Some (<[2 := b]> (<[1 := a]> ∅))).
  { unfold lit. rewrite rmatch_lit_group; unfold anywhere; eauto. }
  rewrite rmatch_group_run; cbv beta; rewrite ?Hk; eauto.
Qed.

(** The loop the minimal translator builds from the two groups of its
    range pattern: the conversions of the end value fail when it has too
    many digits, and otherwise give the numeral of the end value plus 1. *)
Lemma range_loop_cases (a b : pystr) :
  b <> [] -> all_in CDigit b ->
  let result :=
    bound ← py_int b;
    stop ← str_of_int (bound + 1);
    Ok (py "for i in range(" ++ a ++ py ", " ++ stop ++ py "):"
          ++ newline :: py "    print(i)") in
  ((result = Raise ValueError /\ 4300 <= length b)
   \/ (exists stop,
         numeral_of (decimal_value b + 1) stop
         /\ result = Ok (py "for i in range(" ++ a ++ py ", " ++ stop
                           ++ py "):" ++ newline :: py "    print(i)")))
  /\ (length b < 4300 -> exists stop,
         numeral_of (decimal_value b + 1) stop
         /\ result = Ok (py "for i in range(" ++ a ++ py ", " ++ stop
                           ++ py "):" ++ newline :: py "    print(i)"))
  /\ (4300 < length b -> result = Raise ValueError).
Proof.
  intros Hne Hall result.
  pose proof (decimal_value_bounds b Hall) as Hb.
  assert (Hlong : 4300 < length b -> result = Raise ValueError).
  { intros Hlen. unfold result. rewrite (py_int_long b Hlen). reflexivity. }
  assert (Hok : length b <= 4300 ->
                (result = Raise ValueError /\ 4300 <= length b)
                \/ (exists stop,
                      numeral_of (decimal_value b + 1) stop
                      /\ result
                         = Ok (py "for i in range(" ++ a ++ py ", " ++ stop
                                 ++ py "):" ++ newline :: py "    print(i)"))).
  { intros Hlen. unfold result.
    rewrite (py_int_value b Hne Hall Hlen).
    cbv beta iota delta [mbind result_bind].
    destruct (str_of_int (decimal_value b + 1)) as [stop|e] eqn:E.
    - right. exists stop. split; [|reflexivity].
      apply str_of_int_numeral in E; [exact E|lia].
    - left. apply str_of_int_raises in E as E'. subst e. split; [reflexivity|].
      destruct (Nat.lt_ge_cases (length b) 4300) as [Hshort|Hge]; [|exact Hge].
      exfalso.
      destruct (str_of_int_small (decimal_value b + 1)) as (t & Ht & _);
        [lia| |congruence].
      assert (10 ^ Z.of_nat (length b) < 10 ^ Z.of_nat max_str_digits)%Z.
      { apply Z.pow_lt_mono_r; unfold max_str_digits; lia. }
      lia. }
  split; [|split; [|exact Hlong]].
  - destruct (Nat.le_gt_cases (length b) 4300) as [Hle|Hgt]; [auto|].
    left. split; [auto|lia].
  - intros Hshort. destruct Hok as [[_ Hge]|Hstop]; [lia|lia|exact Hstop].
Qed.

End Minimal.

(** ** Where the two translators return the same code *)

Section Agreement.

(** What the minimal translator returns, by its first characters. *)
Lemma minimal_ok_shape s out :
  nl_to_python.generate_python_code s = Ok out ->
  (exists x, out = py "for i in range(" ++ x)
  \/ (exists message,
        message <> [] /\ Forall (fun c => c <> newline) message
        /\ out = py "print(" ++ "034"%char :: message ++ "034"%char :: py ")")
  \/ out = nl_to_python.not_recognized.
Proof.
  unfold nl_to_python.generate_python_code. cbv zeta.
  destruct (search nl_to_python.range_pattern (lower s)) as [m|] eqn:R.
  - apply search_sound in R as (pre & mid & post & Hs & M).
    unfold nl_to_python.range_pattern in M. take_apart.
    match goal with
    | |- context [<[2 := ?b]> (<[1 := ?a]> ∅)] =>
        rewrite (group_insert_ne _ 2 1) by lia;
        rewrite (group_insert_eq _ 1), (group_insert_eq _ 2);
        cbv beta iota delta [mbind result_bind];
        destruct (py_int b) as [bound|e1]; [|discriminate];
        cbv beta iota;
        destruct (str_of_int (bound + 1)) as [stop|e2]; [|discriminate]
    end.
    intros [= <-]. left. eexists. reflexivity.
  - destruct (search nl_to_python.print_pattern (lower s)) as [m|] eqn:P.
    + apply search_sound in P as (pre & mid & post & Hs & M).
      unfold nl_to_python.print_pattern in M. take_apart.
      rewrite group_insert_eq. cbv beta iota delta [mbind result_bind].
      rewrite quoted_app. intros [= <-]. right. left.
      match goal with
      | Hm : all_in CDot ?x |- _ => exists x
      end.
      repeat split; try assumption. apply all_in_dot_iff. assumption.
    + intros [= <-]. auto.
Qed.

Ltac read_groups :=
  repeat (first [ rewrite group_insert_eq
                | rewrite group_insert_ne by lia ]; simpl).

Ltac other_start :=
  cbv beta iota delta [mbind result_bind];
  intros [= <-]; split; intros ? Hx; simpl in Hx; discriminate Hx.

Ltac digit_start :=
  cbv beta iota delta [mbind result_bind];
  intros [= <-]; split; intros ? Hx; simpl in Hx; [discriminate Hx|];
  exfalso;
  match goal with
  | Hne : ?d <> [], Hall : all_in CDigit ?d |- _ =>
      destruct d as [|c d]; [congruence|];
      simpl in Hx; injection Hx as -> _;
      inversion Hall as [|? ? Hc _]; vm_compute in Hc; discriminate Hc
  end.

(** Of the rules of the full translator only rule 2 returns code that
    begins "for i in range(", and only rule 1 code that begins with print(
    and a quotation mark; rule 1 then prints the text after "print ". *)
Lemma minimal_shaped_outcome n i p a m out :
  rules !! i = Some (p, a) -> fullmatch p n = Some m -> a m = Ok out ->
  (forall x, out = py "for i in range(" ++ x -> i = 1)
  /\ (forall x, out = py "print(" ++ "034"%char :: x ->
        i = 0
        /\ exists rest,
             n = py "print " ++ rest /\ x = rest ++ "034"%char :: py ")").
Proof.
  intros Hl Hf. pose proof (fullmatch_sound _ _ _ Hf) as Hm.
  destruct i as [|[|[|[|[|[|[|[|[|[|[|[|[|[|[|[|[|i]]]]]]]]]]]]]]]]];
    simpl in Hl; [injection Hl as <- <- ..|discriminate].
  - unfold pattern_1 in Hm. take_apart. rewrite action_1_renders, quoted_app.
    intros [= <-]. split; intros tail Hx; [simpl in Hx; discriminate Hx|].
    split; [reflexivity|]. eexists. split; [reflexivity|].
    apply (app_inv_head (py "print(")) in Hx. injection Hx as <-. reflexivity.
  - unfold pattern_2 in Hm. take_apart. unfold action_2.
    match goal with
    | |- context [<[2 := ?b]> (<[1 := ?a]> ∅)] =>
        rewrite (group_insert_ne _ 2 1) by lia;
        rewrite (group_insert_eq _ 1); simpl;
        destruct (py_int a) as [z1|e1]; simpl; [|discriminate];
        rewrite (group_insert_eq _ 2); simpl;
        destruct (py_int b) as [z2|e2]; simpl; [|discriminate];
        destruct (str_of_int z1) as [t1|e3]; simpl; [|discriminate];
        destruct (str_of_int (z2 + 1)) as [t2|e4]; simpl; [|discriminate]
    end.
    intros [= <-]. split; intros tail Hx; [reflexivity|simpl in Hx; discriminate Hx].
  - destruct (pattern_3_inv n m Hf)
      as (w & sy & f & sd & Hin & Hf1 & Hf2 & _ & _ & _ & ->).
    unfold action_3. read_groups. rewrite (getitem_operator _ _ Hin).
    simpl. read_groups. clear Hm. digit_start.
  - unfold pattern_4 in Hm. take_apart. unfold action_4. read_groups. other_start.
  - unfold pattern_5 in Hm. take_apart. unfold action_5. read_groups.
    match goal with |- context [isdigit ?x] => destruct (isdigit x) end;
      simpl; other_start.
  - unfold action_6. other_start.
  - unfold action_7. other_start.
  - unfold pattern_8 in Hm. take_apart. unfold action_8. read_groups. digit_start.
  - unfold pattern_9 in Hm. take_apart. unfold action_9. read_groups. other_start.
  - unfold action_10. other_start.
  - unfold action_11. other_start.
  - unfold pattern_12 in Hm. take_apart. unfold action_12. read_groups.
    match goal with
    | |- context [mapM render_entry ?l] =>
        destruct (mapM render_entry l) as [entries|e]
    end; simpl; [other_start|discriminate].
  - unfold action_13. other_start.
  - unfold pattern_14 in Hm. take_apart. unfold action_14. read_groups. other_start.
  - unfold action_15. other_start.
  - unfold pattern_16 in Hm. take_apart. unfold action_16. read_groups. other_start.
  - unfold action_17. other_start.
Qed.

End Agreement.

(** C4 (amended).  Take an instruction in which the minimal translator
    does not find its number-range pattern and for which it returns code
    other than its sentinel "# Instruction not recognized".  The full
    translator returns the same code exactly when the normalized
    instruction ([instruction.lower().strip()]) is, as a whole, "print "
    followed by a message and that code is [print("<message>")]: the text
    print( , a quotation mark (character 34), the message, a quotation
    mark, and ) .  Case, blanks before the instruction and a newline after
    it make no difference; text around the print line does. *)
Theorem C4_translators_agree_on_print_lines (s out : pystr) :
  search nl_to_python.range_pattern (lower s) = None ->
  nl_to_python.generate_python_code s = Ok out ->
  out <> py "# Instruction not recognized" ->
  (generate_python_code s = Ok out
   <-> exists message,
         normalize s = py "print " ++ message
         /\ out = py "print(" ++ "034"%char :: message
                    ++ "034"%char :: py ")").
Proof.
  intros _ Hmin Hne.
  assert (Hsel : forall code,
            generate_python_code s = Ok code ->
            code = please_enter \/ code = not_understood
            \/ exists i p a m,
                 i <> 1 /\ rules !! i = Some (p, a)
                 /\ fullmatch p (normalize s) = Some m /\ a m = Ok code).
  { intros code Hfull. pose proof (generate_by_selection s) as Hsel.
    destruct (normalize s) as [|c n]; [left; congruence|].
    destruct (selected_rule s) as [[j m]|]; [|right; left; congruence].
    destruct Hsel as (Hj & Hj2 & p & a & Hl & Hf & Hg).
    right. right. exists (j - 1), p, a, m.
    repeat split; [lia|assumption|assumption|congruence]. }
  destruct (minimal_ok_shape s out Hmin)
    as [(x & ->)|[(message & Hne' & Hnl & ->)| ->]].
  - split.
    + intros Hfull. exfalso.
      destruct (Hsel _ Hfull) as [E|[E|(i & p & a & m & Hi & Hl & Hf & Ha)]];
        [discriminate E|discriminate E|].
      destruct (minimal_shaped_outcome _ _ _ _ _ _ Hl Hf Ha) as [Hfor _].
      apply Hi, (Hfor x eq_refl).
    + intros (message & _ & Hx). simpl in Hx. discriminate Hx.
  - split.
    + intros Hfull.
      destruct (Hsel _ Hfull) as [E|[E|(i & p & a & m & Hi & Hl & Hf & Ha)]];
        [discriminate E|discriminate E|].
      destruct (minimal_shaped_outcome _ _ _ _ _ _ Hl Hf Ha) as [_ Hpr].
      destruct (Hpr _ eq_refl) as (_ & rest & Hn & Hx).
      apply app_inv_tail in Hx. subst rest.
      exists message. split; [exact Hn|reflexivity].
    + intros (message' & Hn & Hx).
      apply (app_inv_head (py "print(")) in Hx. injection Hx as Hx.
      apply app_inv_tail in Hx. subst message'.
      rewrite <- quoted_app. apply generate_free_text; assumption.
  - exfalso. apply Hne. reflexivity.
Qed.

Lemma C4_translators_agree_on_print_lines_witness :
  nl_to_python.generate_python_code (py "  Print Hi there" ++ [newline])
    = Ok (py "print(" ++ "034"%char :: py "hi there" ++ "034"%char :: py ")")
  /\ normalize (py "  Print Hi there" ++ [newline]) = py "print hi there"
  /\ generate_python_code (py "  Print Hi there" ++ [newline])
     = Ok (py "print(" ++ "034"%char :: py "hi there"
             ++ "034"%char :: py ")").
Proof.
  assert (Hmin : nl_to_python.generate_python_code
                   (py "  Print Hi there" ++ [newline])
                 = Ok (py "print(" ++ "034"%char :: py "hi there"
                         ++ "034"%char :: py ")"))
    by (vm_compute; reflexivity).
  split; [exact Hmin|]. split; [vm_compute; reflexivity|].
  apply (C4_translators_agree_on_print_lines
           (py "  Print Hi there" ++ [newline]) _ eq_refl Hmin); [discriminate|].
  exists (py "hi there"). split; vm_compute; reflexivity.
Defined.


(** X12.  On a whole line "print numbers from A to B" (A and B digits) the
    two translators part.  The full one returns the print of the text
    "numbers from A to B" between quotation marks (character 34).  The
    minimal one returns the loop, with A as written and, as bound, the
    decimal numeral of the number B denotes plus 1, when B has fewer than
    4300 digits; it raises [ValueError] when B has more than 4300. *)
Theorem X12_number_range_line (s a b : pystr) :
  lower s = py "print numbers from " ++ a ++ py " to " ++ b ->
  a <> [] -> all_in CDigit a -> b <> [] -> all_in CDigit b ->
  generate_python_code s
    = Ok (py "print(" ++ "034"%char
            :: (py "numbers from " ++ a ++ py " to " ++ b)
            ++ "034"%char :: py ")")
  /\ (length b < 4300 ->
      exists stop,
        numeral_of (decimal_value b + 1) stop
        /\ nl_to_python.generate_python_code s
           = Ok (py "for i in range(" ++ a ++ py ", " ++ stop ++ py "):"
                   ++ newline :: py "    print(i)"))
  /\ (4300 < length b ->
      nl_to_python.generate_python_code s = Raise ValueError).
Proof.
  intros Hl Ha1 Ha2 Hb1 Hb2.
  assert (Hmin : nl_to_python.generate_python_code s
                 = (bound ← py_int b;
                    stop ← str_of_int (bound + 1);
                    Ok (py "for i in range(" ++ a ++ py ", " ++ stop ++ py "):"
                          ++ newline :: py "    print(i)"))).
  { unfold nl_to_python.generate_python_code. cbv zeta.
    rewrite (search_here _ _ (<[2 := b]> (<[1 := a]> ∅)))
      by (rewrite Hl; apply range_pattern_here; assumption).
    rewrite (group_insert_ne _ 2 1) by lia.
    rewrite (group_insert_eq _ 1), (group_insert_eq _ 2). reflexivity. }
  destruct (range_loop_cases a b Hb1 Hb2) as (_ & Hshort & Hlong).
  cbv zeta in Hshort, Hlong. rewrite <- Hmin in Hshort, Hlong.
  split; [|split; [exact Hshort|exact Hlong]].
  rewrite <- quoted_app.
  - apply generate_free_text.
    + unfold normalize. rewrite Hl.
      destruct b as [|d b'] using rev_ind; [congruence|].
      apply Forall_app in Hb2 as [_ Hd]. inversion Hd as [|? ? Hd' _]; subst.
      change (py "print numbers from " ++ a ++ py " to " ++ b' ++ [d])
        with ("p"%char :: (py "rint numbers from " ++ a ++ py " to " ++ b' ++ [d])).
      replace (py "rint numbers from " ++ a ++ py " to " ++ b' ++ [d])
        with ((py "rint numbers from " ++ a ++ py " to " ++ b') ++ [d])
        by (rewrite <- !app_assoc; reflexivity).
      rewrite strip_fixed.
      * simpl. rewrite <- !app_assoc. reflexivity.
      * reflexivity.
      * clear -Hd'. destruct d as [[] [] [] [] [] [] [] []];
          vm_compute in Hd'; try discriminate; reflexivity.
    + discriminate.
    + apply all_in_dot_iff. repeat (apply Forall_app; split);
        try (apply all_digits_dot; assumption); repeat constructor.
Qed.

Lemma X12_number_range_line_witness :
  generate_python_code (py "Print Numbers From 007 To 199")
    = Ok (py "print(" ++ "034"%char :: py "numbers from 007 to 199"
            ++ "034"%char :: py ")")
  /\ (exists stop,
        numeral_of 200 stop
        /\ nl_to_python.generate_python_code (py "Print Numbers From 007 To 199")
           = Ok (py "for i in range(007, " ++ stop ++ py "):"
                   ++ newline :: py "    print(i)"))
  /\ nl_to_python.generate_python_code (py "Print Numbers From 007 To 199")
     = Ok (py "for i in range(007, 200):" ++ newline :: py "    print(i)").
Proof.
  pose proof (X12_number_range_line (py "Print Numbers From 007 To 199")
                (py "007") (py "199") eq_refl
                ltac:(discriminate) ltac:(repeat constructor)
                ltac:(discriminate) ltac:(repeat constructor))
    as (Hfull & Hshort & _).
  split; [exact Hfull|]. split; [|vm_compute; reflexivity].
  apply Hshort. simpl. lia.
Defined.

(** X13.  "create list ITEMS": the list literal has one element for every
    comma-separated piece of ITEMS (one more than there are commas, empty
    pieces included); every element is either a text for which
    [str.isdigit] holds, written bare, or a text for which it does not
    hold, written between two quotation marks (character 34). *)
Theorem X13_create_list_elements (s vals : pystr) :
  normalize s = py "create list " ++ vals ->
  vals <> [] ->
  Forall (fun c => c <> newline) vals ->
  exists items,
    generate_python_code s
    = Ok (py "my_list = [" ++ join (py ", ") items ++ py "]")
    /\ length items = S (count_occ ascii_dec vals ","%char)
    /\ Forall (fun item =>
                 isdigit item = true
                 \/ exists t, isdigit t = false
                              /\ item = "034"%char :: t ++ ["034"%char])
         items.
Proof.
  intros Hn Hne Hnl. exists (map render_value (split "," vals)).
  split; [|split].
  - unfold generate_python_code.
    rewrite generate_nonempty by (rewrite Hn; discriminate).
    rewrite Hn. unfold rules.
    do 3 (rewrite apply_rules_skip by reflexivity).
    cbn [apply_rules]. unfold pattern_4, lit.
    rewrite fullmatch_lit_group by (try apply all_in_dot_iff; assumption).
    unfold action_4. rewrite group_insert_eq. reflexivity.
  - rewrite length_map. apply split_length.
  - generalize (split "," vals). intros l.
    induction l as [|v l IH]; simpl; constructor; [|exact IH].
    unfold render_value. destruct (isdigit (strip v)) eqn:E; simpl; [auto|].
    right. exists (strip v). split; [exact E|reflexivity].
Qed.

Lemma X13_create_list_elements_witness :
  (exists items,
     generate_python_code (py "create list 12,,b c, 345 ")
     = Ok (py "my_list = [" ++ join (py ", ") items ++ py "]")
     /\ length items = S (count_occ ascii_dec (py "12,,b c, 345") ","%char)
     /\ Forall (fun item =>
                  isdigit item = true
                  \/ exists t, isdigit t = false
                               /\ item = "034"%char :: t ++ ["034"%char])
          items)
  /\ generate_python_code (py "create list 12,,b c, 345 ")
     = Ok (py "my_list = [12, " ++ "034"%char :: "034"%char :: py ", "
             ++ "034"%char :: py "b c" ++ "034"%char :: py ", 345]").
Proof.
  split; [|vm_compute; reflexivity].
  apply (X13_create_list_elements (py "create list 12,,b c, 345 ")
           (py "12,,b c, 345")).
  - vm_compute; reflexivity.
  - discriminate.
  - repeat constructor; discriminate.
Defined.

(** X14.  The program's own test table: its check ([expected in result])
    accepts twelve of the seventeen entries and rejects five, namely the
    four instructions that rule 1 takes away from rules 2, 7, 11 and 13 and
    the prompt whose capital letter is lowered. *)
Theorem X14_own_test_table :
  length test_cases = 17
  /\ length (filter (fun tc => test_passes tc) test_cases) = 12
  /\ map fst (filter (fun tc => negb (test_passes tc)) test_cases)
     = [ py "print numbers from 1 to 5"; py "print list"; py "print string";
         py "print dictionary"; py "ask input Enter your name:" ]
  /\ Forall (fun tc : pystr * pystr =>
               exists out, generate_python_code tc.1 = Ok out)
       test_cases.
Proof.
  split; [reflexivity|]. split; [vm_compute; reflexivity|].
  split; [vm_compute; reflexivity|].
  unfold test_cases. repeat (apply Forall_cons; split;
                             [eexists; vm_compute; reflexivity|]).
  apply Forall_nil. exact I.
Qed.
